(** * homework_bot: the polling loop of [homework.py] and its helpers

    A shallow embedding of [src/homework.py] and [src/exceptions.py].
    Python values decoded from JSON are the inductive [pyval]; exceptions are
    values of [exn] (class, first argument, implicit context); functions that
    log, call the network or raise live in the monad [M], whose traces record
    every log call, HTTP request, Telegram call and sleep in program order. *)

From Stdlib Require Import ZArith String Ascii List DecimalString Floats.PrimFloat.
From stdpp Require Import base option gmap strings list.

#[local] Set Warnings "-register-all".
#[local] Open Scope Z_scope.

(** ** Python values *)

(** What [response.json()] can return: [None], [bool], [int], [float],
    [str], [list] and [dict] with string keys. *)
Inductive pyval : Type :=
| PNone
| PBool (b : bool)
| PInt (n : Z)
| PFloat (f : PrimFloat.float)
| PStr (s : string)
| PList (items : list pyval)
| PDict (entries : gmap string pyval).

(** [isinstance(v, dict)], [isinstance(v, list)], [isinstance(v, int)].
    [bool] is a subclass of [int] in Python. *)
Definition isinstance_dict (v : pyval) : bool :=
  match v with PDict _ => true | _ => false end.

Definition isinstance_list (v : pyval) : bool :=
  match v with PList _ => true | _ => false end.

Definition isinstance_int (v : pyval) : bool :=
  match v with PInt _ | PBool _ => true | _ => false end.

(** The text of [type(v)] inside an f-string. *)
Definition type_name (v : pyval) : string :=
  match v with
  | PNone => "NoneType"
  | PBool _ => "bool"
  | PInt _ => "int"
  | PFloat _ => "float"
  | PStr _ => "str"
  | PList _ => "list"
  | PDict _ => "dict"
  end.

Definition py_type (v : pyval) : string :=
  "<class '" +:+ type_name v +:+ "'>".

(** Decimal text of an [int]. *)
Definition str_of_int (n : Z) : string := NilZero.string_of_int (Z.to_int n).

(** Truth value of an object ([if x:]). *)
Definition truthy (v : pyval) : bool :=
  match v with
  | PNone => false
  | PBool b => b
  | PInt n => negb (n =? 0)
  | PFloat f => negb (PrimFloat.eqb f PrimFloat.zero)
  | PStr s => negb (String.eqb s "")
  | PList l => match l with [] => false | _ => true end
  | PDict d => negb (bool_decide (d = ∅))
  end.

(** The double quote character, as a one-character string. *)
Definition dquote : string := String (ascii_of_nat 34) EmptyString.

(** ** Exceptions *)

(** The classes the handlers of [homework.py] dispatch on: the builtins, the
    ones of [requests.exceptions] and [telegram.error], and the three of
    [exceptions.py]. [ConnectionError] is the builtin (the name is not
    imported from [requests] in [homework.py]); [requests_ConnectionError] is
    [requests.exceptions.ConnectionError]. *)
Inductive exn_class : Type :=
| BaseException
| SystemExit
| KeyboardInterrupt
| Exception
| TypeError
| ValueError
| LookupError
| KeyError
| OSError
| ConnectionError
| RequestException
| requests_ConnectionError
| requests_Timeout
| requests_HTTPError
| TelegramError
| NetworkError
| TimedOut
| Unauthorized
| SendMessageError
| EndpointStatusError
| EndPointError.

#[export] Instance exn_class_eq_dec : EqDecision exn_class.
Proof. solve_decision. Defined.

(** The direct base class. *)
Definition base_class (c : exn_class) : option exn_class :=
  match c with
  | BaseException => None
  | SystemExit | KeyboardInterrupt | Exception => Some BaseException
  | TypeError | ValueError | LookupError | OSError | TelegramError => Some Exception
  | SendMessageError | EndpointStatusError | EndPointError => Some Exception
  | KeyError => Some LookupError
  | ConnectionError | RequestException => Some OSError
  | requests_ConnectionError | requests_Timeout | requests_HTTPError =>
      Some RequestException
  | NetworkError | Unauthorized => Some TelegramError
  | TimedOut => Some NetworkError
  end.

Fixpoint issubclass_upto (depth : nat) (c d : exn_class) : bool :=
  if bool_decide (c = d) then true
  else match depth with
       | O => false
       | S depth' =>
           match base_class c with
           | Some b => issubclass_upto depth' b d
           | None => false
           end
       end.

(** [issubclass(c, d)]; no chain of bases is longer than four. *)
Definition issubclass (c d : exn_class) : bool := issubclass_upto 4 c d.

(** An exception object: its class, [args[0]], and the exception that was
    being handled when it was raised ([__context__]). *)
Inductive exn : Type :=
| Exn (cls : exn_class) (arg : pyval) (context : option exn).

Definition exn_cls (e : exn) : exn_class := match e with Exn c _ _ => c end.
Definition exn_arg (e : exn) : pyval := match e with Exn _ a _ => a end.
Definition exn_context (e : exn) : option exn := match e with Exn _ _ c => c end.

Definition isinstance (e : exn) (c : exn_class) : bool := issubclass (exn_cls e) c.
Arguments isinstance : simpl never.

(** ** Effects *)

Inductive logger_id : Type :=
| RootLogger      (* logging.debug, logging.error, logging.critical *)
| ModuleLogger.   (* logger = logging.getLogger(__name__) *)

Inductive level : Type := DEBUG | INFO | ERROR | CRITICAL.

(** What the program does to the outside, in order. [BotSend] records the
    call [bot.send_message(chat_id, text)] and whether it returned. *)
Inductive event : Type :=
| Log (lg : logger_id) (lvl : level) (msg : string)
| HttpGet (url : string) (authorization : string) (from_date : Z)
| BotSend (chat_id : option string) (text : string) (delivered : bool)
| Sleep (seconds : Z).

Inductive result (A : Type) : Type :=
| Return (a : A)
| Raise (e : exn).
Arguments Return {A} a.
Arguments Raise {A} e.

(** A computation: the events it performed and how it ended. *)
Definition M (A : Type) : Type := list event * result A.

#[export] Instance M_ret : MRet M := λ A a, ([], Return a).

#[export] Instance M_bind : MBind M := λ A B k m,
  match m with
  | (t, Return a) => let '(t', r) := k a in (t ++ t', r)
  | (t, Raise e) => (t, Raise e)
  end.

Definition emit (ev : event) : M unit := ([ev], Return tt).
Definition raise {A} (e : exn) : M A := ([], Raise e).

(** [except C as e: h e], tried in order: the first clause whose class the
    exception is an instance of handles it. *)
Fixpoint select_handler {A} (e : exn) (clauses : list (exn_class * (exn → M A)))
  : option (M A) :=
  match clauses with
  | [] => None
  | (c, h) :: rest => if isinstance e c then Some (h e) else select_handler e rest
  end.

(** [try: body  except ...: ...] *)
Definition try_except {A} (body : M A) (clauses : list (exn_class * (exn → M A)))
  : M A :=
  match body with
  | (t, Return a) => (t, Return a)
  | (t, Raise e) =>
      match select_handler e clauses with
      | Some (t', r) => (t ++ t', r)
      | None => (t, Raise e)
      end
  end.

(** [try: body  finally: fin]: [fin] runs however [body] ended; an
    exception of [fin] replaces the outcome of [body]. *)
Definition try_finally {A} (body : M A) (fin : M unit) : M A :=
  match body, fin with
  | (t, r), (t', Return _) => (t ++ t', r)
  | (t, _), (t', Raise e') => (t ++ t', Raise e')
  end.

Definition trace_of {A} (m : M A) : list event := m.1.
Definition outcome_of {A} (m : M A) : result A := m.2.

(** ** The outside world *)

(** An HTTP response as [get_api_answer] uses it: the status code and what
    [response.json()] does (return a decoded value or raise). *)
Record Response : Type := {
  status_code : Z;
  json : result pyval
}.

(** What one cycle can observe of the outside: the outcome of
    [requests.get(url, headers=..., params={"from_date": ...})] and of
    [bot.send_message(chat_id, text)] ([None] when the call returns). *)
Record world : Type := {
  requests_get : string → string → Z → exn + Response;
  bot_send_message : option string → string → option exn
}.

Definition http_get (w : world) (url authorization : string) (from_date : Z)
  : M Response :=
  match requests_get w url authorization from_date with
  | inl e => ([HttpGet url authorization from_date], Raise e)
  | inr r => ([HttpGet url authorization from_date], Return r)
  end.

Definition call_bot (w : world) (chat_id : option string) (text : string) : M unit :=
  match bot_send_message w chat_id text with
  | Some e => ([BotSend chat_id text false], Raise e)
  | None => ([BotSend chat_id text true], Return tt)
  end.

Definition sleep (seconds : Z) : M unit := emit (Sleep seconds).

Definition logger_info (msg : string) : M unit := emit (Log ModuleLogger INFO msg).
Definition logger_error (msg : string) : M unit := emit (Log ModuleLogger ERROR msg).
Definition logging_debug (msg : string) : M unit := emit (Log RootLogger DEBUG msg).
Definition logging_error (msg : string) : M unit := emit (Log RootLogger ERROR msg).
Definition logging_critical (msg : string) : M unit := emit (Log RootLogger CRITICAL msg).

(** [sys.exit(code)] *)
Definition sys_exit {A} (code : Z) : M A := raise (Exn SystemExit (PInt code) None).

(** [d[key]] on a dict with string keys. *)
Definition getitem (d : gmap string pyval) (key : string) : M pyval :=
  match d !! key with
  | Some v => mret v
  | None => raise (Exn KeyError (PStr key) None)
  end.

(** ** Constants of [homework.py] *)

Definition RETRY_PERIOD : Z := 600.

Definition ENDPOINT : string :=
  "https://practicum.yandex.ru/api/user_api/homework_statuses/".

Definition HOMEWORK_VERDICTS : gmap string string :=
  <["approved" := "Работа проверена: ревьюеру всё понравилось. Ура!"]>
  (<["reviewing" := "Работа взята на проверку ревьюером."]>
  (<["rejected" := "Работа проверена: у ревьюера есть замечания."]> ∅)).

Definition HTTPStatus_OK : Z := 200.

Definition NO_WORK : string := "Работ на проверке нет.".

(** [key in d] for the verdict table: the key is hashed first, which raises
    for a list or a dict; a hashable value that is not a [str] equals no key. *)
Definition contains (d : gmap string string) (key : pyval) : M bool :=
  match key with
  | PStr s => mret (bool_decide (s ∈ dom d))
  | PList _ => raise (Exn TypeError (PStr "unhashable type: 'list'") None)
  | PDict _ => raise (Exn TypeError (PStr "unhashable type: 'dict'") None)
  | _ => mret false
  end.

(** [d[key]] for the verdict table. *)
Definition subscript (d : gmap string string) (key : pyval) : M string :=
  match key with
  | PStr s =>
      match d !! s with
      | Some v => mret v
      | None => raise (Exn KeyError key None)
      end
  | PList _ => raise (Exn TypeError (PStr "unhashable type: 'list'") None)
  | PDict _ => raise (Exn TypeError (PStr "unhashable type: 'dict'") None)
  | _ => raise (Exn KeyError key None)
  end.

(** [all(isinstance(item, dict) for item in homeworks)], keeping the
    dictionaries when it holds. *)
Fixpoint all_dicts (items : list pyval) : option (list (gmap string pyval)) :=
  match items with
  | [] => Some []
  | PDict d :: rest => cons d <$> all_dicts rest
  | _ :: _ => None
  end.

(** [check_response]: lines 150-193. It reads no global and formats no
    value other than [type(response)]. *)
Definition check_response (response : pyval) : M (list (gmap string pyval)) :=
  match response with
  | PDict d =>
      if negb (bool_decide ("homeworks" ∈ dom d)) then
        logger_error "Ответ API не содержит ключа 'homeworks'";;
        raise (Exn KeyError (PStr "Ответ API не содержит ключа 'homeworks'") None)
      else
        homeworks ← getitem d "homeworks";
        current_date ← getitem d "current_date";
        match homeworks with
        | PList items =>
            match all_dicts items with
            | None =>
                logger_error "Ожидаемый тип данных - list of dict.";;
                raise (Exn TypeError (PStr "Тип данных не является списком словарей.") None)
            | Some dicts =>
                if negb (isinstance_int current_date) then
                  logger_error ("Ожидаемый тип данных - int, получен "
                                +:+ py_type response +:+ ".");;
                  raise (Exn TypeError (PStr "Тип данных не является целым числом.") None)
                else mret dicts
            end
        | _ =>
            logger_error ("Ожидаемый тип данных - list, получен "
                          +:+ py_type response +:+ ".");;
            raise (Exn TypeError (PStr "Тип данных не является списком словарей.") None)
        end
  | _ =>
      logger_error ("Ожидаемый тип данных - dict, получен "
                    +:+ py_type response +:+ ".");;
      raise (Exn TypeError (PStr "Тип данных не является словарем.") None)
  end.

Section Homework.

(** Python's [repr] of a value (quoting and escaping of [str], the text of a
    [float], the layout of containers) and of a set of strings (whose
    iteration order depends on the hash seed) are left abstract. *)
Variable py_repr : pyval → string.
Variable py_repr_set : gset string → string.

(** The three environment variables read at import time ([os.getenv]). *)
Variables PRACTICUM_TOKEN TELEGRAM_TOKEN TELEGRAM_CHAT_ID : option string.

(** What the constructor [telegram.Bot(token=...)] does with a token:
    [None] when it returns the bot, [Some e] when it raises [e] (the library
    refuses a malformed token with [InvalidToken]). *)
Variable telegram_Bot : option string → option exn.

(** [str(v)], as an f-string formats a value. *)
Definition py_str (v : pyval) : string :=
  match v with
  | PStr s => s
  | PNone => "None"
  | PBool true => "True"
  | PBool false => "False"
  | PInt n => str_of_int n
  | _ => py_repr v
  end.

Definition str_of_optional (o : option string) : string :=
  match o with Some s => s | None => "None" end.

(** [str(e)]: the argument, and its [repr] for a [KeyError]. *)
Definition exn_str (e : exn) : string :=
  if isinstance e KeyError then
    match exn_arg e with PStr _ => py_repr (exn_arg e) | a => py_str a end
  else py_str (exn_arg e).

(** [HEADERS["Authorization"]] *)
Definition HEADERS : string := "OAuth " +:+ str_of_optional PRACTICUM_TOKEN.

(** [check_tokens]: lines 63-78. Falling off the end returns [None]. *)
Definition check_tokens : pyval :=
  let token_data :=
    [("PRACTICUM_TOKEN", PRACTICUM_TOKEN);
     ("TELEGRAM_TOKEN", TELEGRAM_TOKEN);
     ("TELEGRAM_CHAT_ID", TELEGRAM_CHAT_ID)] in
  let tokens_filled :=
    forallb (λ '(_, value), match value : option string with
                            | Some _ => true | None => false end) token_data in
  if tokens_filled then PBool tokens_filled else PNone.

(** [send_message]: lines 81-102. *)
Definition send_message (bot : world) (message : string) : M unit :=
  try_except
    (call_bot bot TELEGRAM_CHAT_ID message;;
     logging_debug ("Отправлено сообщение: " +:+ message))
    [(TelegramError, λ e,
       logging_error ("Сообщение не удалось отправить: " +:+ message
                      +:+ ". Причина: " +:+ exn_str e);;
       raise (Exn SendMessageError
                (PStr ("Не удалось отправить сообщение: " +:+ exn_str e)) (Some e)))].

(** [get_api_answer]: lines 105-147. *)
Definition get_api_answer (w : world) (timestamp : Z) : M pyval :=
  let payload := timestamp in
  try_except
    (response ← http_get w ENDPOINT HEADERS payload;
     if negb (status_code response =? HTTPStatus_OK) then
       let message :=
         "Не удалось получить ответ от " +:+ ENDPOINT +:+ " "
         +:+ "с параметрами dict_values([" +:+ str_of_int payload +:+ "]). "
         +:+ "Код запроса - " +:+ str_of_int (status_code response) +:+ "." in
       logger_error message;;
       raise (Exn EndpointStatusError (PStr message) None)
     else
       (([], json response) : M pyval))
    [(RequestException, λ e,
       let message :=
         "Ошибка выполнения запроса к " +:+ ENDPOINT +:+ ": " +:+ exn_str e in
       logging_error message;;
       raise (Exn EndPointError (PStr message) (Some e)));
     (ConnectionError, λ e,
       let message :=
         "Не удалось установить соединение с " +:+ ENDPOINT +:+ ":"
         +:+ " " +:+ exn_str e +:+ ". Проверьте интернет-соединение." in
       logger_error message;;
       raise (Exn ConnectionError (PStr message) (Some e)))].

Definition required_keys : gset string := {[ "homework_name"; "status" ]}.

(** [parse_status]: lines 196-233. *)
Definition parse_status (homework : gmap string pyval) : M string :=
  if negb (bool_decide (required_keys ⊆ dom homework)) then
    let missing_keys := required_keys ∖ dom homework in
    logger_error ("Отсутствуют ключи " +:+ py_repr_set missing_keys
                  +:+ " в словаре 'homework'");;
    raise (Exn KeyError
             (PStr ("Отсутствуют ключи " +:+ py_repr_set missing_keys
                    +:+ " в словаре 'homework'")) None)
  else
    homework_status ← getitem homework "status";
    known ← contains HOMEWORK_VERDICTS homework_status;
    if negb known then
      logger_error ("Неизвестный статус - " +:+ py_str homework_status);;
      raise (Exn KeyError (PStr ("Неизвестный статус - " +:+ py_str homework_status)) None)
    else
      verdict ← subscript HOMEWORK_VERDICTS homework_status;
      homework_name ← getitem homework "homework_name";
      let message :=
        "Изменился статус проверки работы "
        +:+ dquote +:+ py_str homework_name +:+ dquote +:+ ". " +:+ verdict in
      logger_info message;;
      mret message.

(** The two variables [main] keeps across cycles. *)
Record loop_state : Type := {
  timestamp : Z;
  last_status : string
}.

(** The body of the [try] of [main]: lines 251-260. It returns the value
    [last_status] has when the body ends. *)
Definition cycle_body (w : world) (st : loop_state) : M string :=
  response ← get_api_answer w (timestamp st);
  homework ← check_response response;
  match homework with
  | first :: _ =>
      homework_status ← parse_status first;
      if negb (String.eqb homework_status (last_status st)) then
        send_message w homework_status;;
        mret homework_status
      else mret (last_status st)
  | [] =>
      if String.eqb (last_status st) "" then
        logger_info NO_WORK;;
        send_message w NO_WORK;;
        mret (last_status st)
      else mret (last_status st)
  end.

(** One turn of [while True]: lines 250-267. *)
Definition iteration (w : world) (st : loop_state) : M loop_state :=
  try_finally
    (try_except
       (new_status ← cycle_body w st;
        mret {| timestamp := timestamp st; last_status := new_status |})
       [(Exception, λ e,
          let message := "Сбой в работе программы: " +:+ exn_str e in
          logger_error message;;
          mret st)])
    (sleep RETRY_PERIOD).

(** [while True] run for as many turns as there are worlds; [Return st]
    means the loop is still running, in state [st], after the last of them,
    [Raise e] that [e] left the loop. *)
Fixpoint poll (ws : list world) (st : loop_state) : M loop_state :=
  match ws with
  | [] => mret st
  | w :: ws' => st' ← iteration w st; poll ws' st'
  end.

(** [bot = telegram.Bot(token=TELEGRAM_TOKEN)], line 245: outside the [try]
    of the loop, so what the constructor raises leaves [main]. *)
Definition new_bot (token : option string) : M unit :=
  match telegram_Bot token with
  | Some e => raise e
  | None => mret tt
  end.

(** [main]: lines 236-267; [now] is [int(time.time())] at start. *)
Definition main (now : Z) (ws : list world) : M loop_state :=
  (if truthy check_tokens then
     logger_info "Переменные окружения заполнены."
   else
     logger_info "Отсутствуют обязательные переменные окружения.";;
     logging_critical "Отсутствуют обязательные переменные окружения.";;
     sys_exit 1);;
  new_bot TELEGRAM_TOKEN;;
  let timestamp := now in
  let last_status := "" in
  poll ws {| timestamp := timestamp; last_status := last_status |}.

(** ** Reading traces *)

(** The calls of [bot.send_message] in a trace: the text and whether the
    call returned. *)
Definition bot_sends (t : list event) : list (string * bool) :=
  omap (λ ev, match ev with BotSend _ text d => Some (text, d) | _ => None end) t.

(** The [from_date] parameters of the HTTP requests in a trace. *)
Definition from_dates (t : list event) : list Z :=
  omap (λ ev, match ev with HttpGet _ _ d => Some d | _ => None end) t.

(** The durations slept in a trace. *)
Definition sleeps (t : list event) : list Z :=
  omap (λ ev, match ev with Sleep n => Some n | _ => None end) t.

Definition is_log (ev : event) : Prop :=
  match ev with Log _ _ _ => True | _ => False end.

Definition only_logs (t : list event) : Prop := Forall is_log t.

(** The cycle run by [w] from [st] fetches and validates a response whose
    first work item resolves to the verdict [V]; [t] is what was traced up to
    there. *)
Definition resolves_to (w : world) (st : loop_state) (V : string) (t : list event)
  : Prop :=
  ∃ t1 response t2 first rest t3,
    get_api_answer w (timestamp st) = (t1, Return response)
    ∧ check_response response = (t2, Return (first :: rest))
    ∧ parse_status first = (t3, Return V)
    ∧ t = t1 ++ t2 ++ t3.

(** Every exception the two external calls of [w] raise is an instance of
    class [c]. *)
Definition raises_only (c : exn_class) (w : world) : Prop :=
  (∀ url auth d e, requests_get w url auth d = inl e → isinstance e c = true)
  ∧ (∀ url auth d r e,
       requests_get w url auth d = inr r → json r = Raise e → isinstance e c = true)
  ∧ (∀ chat text e, bot_send_message w chat text = Some e → isinstance e c = true).

(** A computation that only logs and raises nothing but instances of
    [Exception]. *)
Definition tame {A} (m : M A) : Prop :=
  only_logs (trace_of m)
  ∧ ∀ e, outcome_of m = Raise e → isinstance e Exception = true.

(** ** The validator's checks as a list *)

(** Checks run in order; the first that fails decides the outcome. *)
Fixpoint run_checks {A} (checks : list (bool * M A)) (success : M A) : M A :=
  match checks with
  | [] => success
  | (passed, failure) :: rest => if passed then run_checks rest success else failure
  end.

Definition has_key (v : pyval) (key : string) : bool :=
  match v with PDict d => bool_decide (key ∈ dom d) | _ => false end.

Definition value_at (v : pyval) (key : string) : option pyval :=
  match v with PDict d => d !! key | _ => None end.

Definition homeworks_of (v : pyval) : list (gmap string pyval) :=
  match value_at v "homeworks" with
  | Some (PList items) => default [] (all_dicts items)
  | _ => []
  end.

Definition type_mismatch {A} (log msg : string) : M A :=
  logger_error log;; raise (Exn TypeError (PStr msg) None).

Definition missing_key {A} (log msg : string) : M A :=
  logger_error log;; raise (Exn KeyError (PStr msg) None).

Definition check_is_mapping (v : pyval) : bool * M (list (gmap string pyval)) :=
  (isinstance_dict v,
   type_mismatch ("Ожидаемый тип данных - dict, получен " +:+ py_type v +:+ ".")
                 "Тип данных не является словарем.").

Definition check_has_homeworks (v : pyval) : bool * M (list (gmap string pyval)) :=
  (has_key v "homeworks",
   missing_key "Ответ API не содержит ключа 'homeworks'"
               "Ответ API не содержит ключа 'homeworks'").

(** The lookup [response["current_date"]] of line 179: it logs nothing. *)
Definition check_has_current_date (v : pyval) : bool * M (list (gmap string pyval)) :=
  (has_key v "current_date", raise (Exn KeyError (PStr "current_date") None)).

Definition check_homeworks_is_sequence (v : pyval)
  : bool * M (list (gmap string pyval)) :=
  (match value_at v "homeworks" with Some h => isinstance_list h | None => false end,
   type_mismatch ("Ожидаемый тип данных - list, получен " +:+ py_type v +:+ ".")
                 "Тип данных не является списком словарей.").

Definition check_elements_are_mappings (v : pyval)
  : bool * M (list (gmap string pyval)) :=
  (match value_at v "homeworks" with
   | Some (PList items) => forallb isinstance_dict items
   | _ => false
   end,
   type_mismatch "Ожидаемый тип данных - list of dict."
                 "Тип данных не является списком словарей.").

Definition check_current_date_is_integer (v : pyval)
  : bool * M (list (gmap string pyval)) :=
  (match value_at v "current_date" with Some c => isinstance_int c | None => false end,
   type_mismatch ("Ожидаемый тип данных - int, получен " +:+ py_type v +:+ ".")
                 "Тип данных не является целым числом.").

(** The order the source runs them in. *)
Definition validator_checks (v : pyval) : list (bool * M (list (gmap string pyval))) :=
  [check_is_mapping v; check_has_homeworks v; check_has_current_date v;
   check_homeworks_is_sequence v; check_elements_are_mappings v;
   check_current_date_is_integer v].

(** The five checks in the order the specification lists them, an absent
    [current_date] failing the fifth as a type mismatch. *)
Definition validator_checks_as_specified (v : pyval)
  : list (bool * M (list (gmap string pyval))) :=
  [check_is_mapping v; check_has_homeworks v;
   check_homeworks_is_sequence v; check_elements_are_mappings v;
   check_current_date_is_integer v].

(** ** Statuses *)

(** A value that can be hashed: anything but a list or a dict. *)
Definition hashable (v : pyval) : Prop :=
  match v with PList _ | PDict _ => False | _ => True end.

(** The status is one of the keys of the verdict table. *)
Definition known_status (v : pyval) : Prop :=
  ∃ s, v = PStr s ∧ s ∈ dom HOMEWORK_VERDICTS.

(** ** Sample inputs *)

Definition sample_repr (v : pyval) : string :=
  match v with PStr s => "'" +:+ s +:+ "'" | _ => "<object>" end.

Definition sample_repr_set (s : gset string) : string :=
  "{" +:+ String.concat ", " ((λ k, "'" +:+ k +:+ "'") <$> elements s) +:+ "}".

Definition work_item (name status : string) : gmap string pyval :=
  <["homework_name" := PStr name]> (<["status" := PStr status]> ∅).

Definition api_response (homeworks : list pyval) (current_date : Z) : pyval :=
  PDict (<["homeworks" := PList homeworks]> (<["current_date" := PInt current_date]> ∅)).

Definition task1_approved : gmap string pyval := work_item "task1" "approved".

(** Two responses that have [homeworks] and lack [current_date]. *)
Definition without_date : pyval := PDict {[ "homeworks" := PList [] ]}.

Definition without_date_or_list : pyval := PDict {[ "homeworks" := PInt 5 ]}.

Definition task1_message : string :=
  "Изменился статус проверки работы " +:+ dquote +:+ "task1" +:+ dquote
  +:+ ". Работа проверена: ревьюеру всё понравилось. Ура!".

(** The endpoint answers 200 with [body]; Telegram does [bot]. *)
Definition world_of (body : pyval) (bot : option exn) : world :=
  {| requests_get := λ _ _ _, inr {| status_code := 200; json := Return body |};
     bot_send_message := λ _ _, bot |}.

(** The HTTP call raises [e]. *)
Definition world_http_raises (e : exn) : world :=
  {| requests_get := λ _ _ _, inl e; bot_send_message := λ _ _, None |}.

Definition empty_world : world := world_of (api_response [] 1700000000) None.

Definition task1_world (bot : option exn) : world :=
  world_of (api_response [PDict task1_approved] 1700000000) bot.

Definition network_down : exn := Exn NetworkError (PStr "Bad Gateway") None.

Definition connection_refused : exn :=
  Exn requests_ConnectionError (PStr "Connection refused") None.

Definition sample_chat : option string := Some "chat-id".

Definition sample_token : option string := Some "practicum-token".

Definition remembers_task1 : loop_state :=
  {| timestamp := 1700000000; last_status := task1_message |}.

Definition remembers_nothing : loop_state :=
  {| timestamp := 1700000000; last_status := "" |}.

(** What a cycle traces up to the verdict of [task1_approved], with
    [sample_token] as the credential. *)
Definition task1_trace : list event :=
  [HttpGet ENDPOINT "OAuth practicum-token" 1700000000;
   Log ModuleLogger INFO task1_message].

(** The endpoint answers with status [code] and a body that decodes to
    [None]; Telegram delivers. *)
Definition world_status (code : Z) : world :=
  {| requests_get := λ _ _ _, inr {| status_code := code; json := Return PNone |};
     bot_send_message := λ _ _, None |}.

(** The endpoint answers 200 and [response.json()] raises [e]. *)
Definition world_json_raises (e : exn) : world :=
  {| requests_get := λ _ _ _, inr {| status_code := 200; json := Raise e |};
     bot_send_message := λ _ _, None |}.

Definition socket_reset : exn :=
  Exn ConnectionError (PStr "Connection reset by peer") None.

Definition interrupted : exn := Exn KeyboardInterrupt (PStr "") None.

Definition body_not_json : exn :=
  Exn RequestException (PStr "Expecting value: line 1 column 1 (char 0)") None.

Definition bot_misused : exn :=
  Exn ValueError (PStr "chat_id must not be empty") None.

(** A constructor that takes every token, and one that refuses every
    token. *)
Definition accepting_Bot (token : option string) : option exn := None.

Definition invalid_token : exn := Exn TelegramError (PStr "Invalid token") None.

Definition refusing_Bot (token : option string) : option exn := Some invalid_token.

(** * Properties *)

(** ** The validator *)

Lemma all_dicts_forallb (items : list pyval) :
  forallb isinstance_dict items = bool_decide (is_Some (all_dicts items)).
Proof.
  induction items as [|v items IH]; [done|].
  destruct v; try done. cbn [forallb isinstance_dict all_dicts andb].
  rewrite IH. destruct (all_dicts items); cbn; done.
Qed.

Lemma all_dicts_unchanged (items : list pyval) (dicts : list (gmap string pyval)) :
  all_dicts items = Some dicts → items = PDict <$> dicts.
Proof.
  revert dicts. induction items as [|v items IH]; intros dicts H.
  - by injection H as <-.
  - destruct v; try discriminate. cbn in H.
    destruct (all_dicts items) as [ds|]; [|discriminate].
    injection H as <-. cbn. f_equal. by apply IH.
Qed.

Lemma check_response_run_checks (response : pyval) :
  check_response response
  = run_checks (validator_checks response) (mret (homeworks_of response)).
Proof.
  destruct response as [| | | | |items|d]; try reflexivity.
  unfold check_response, validator_checks, homeworks_of, run_checks.
  cbn [check_is_mapping check_has_homeworks check_has_current_date
       check_homeworks_is_sequence check_elements_are_mappings
       check_current_date_is_integer has_key value_at isinstance_dict fst snd].
  destruct (bool_decide ("homeworks" ∈ dom d)) eqn:Hhw; cbn [negb]; [|reflexivity].
  apply bool_decide_eq_true_1, elem_of_dom in Hhw as [hw Hhw].
  unfold getitem. rewrite Hhw.
  destruct (d !! "current_date") as [cd|] eqn:Hcd.
  - rewrite (bool_decide_eq_true_2 ("current_date" ∈ dom d))
      by (apply elem_of_dom; eauto).
    destruct hw; try reflexivity.
    cbn. rewrite all_dicts_forallb.
    destruct (all_dicts items) as [dicts|]; cbn.
    + destruct (isinstance_int cd); reflexivity.
    + reflexivity.
  - rewrite (bool_decide_eq_false_2 ("current_date" ∈ dom d))
      by (rewrite elem_of_dom, Hcd; by intros [??]).
    reflexivity.
Qed.

(** On success the [homeworks] list is returned as it was received. *)
Lemma check_response_unchanged (response : pyval) (t : list event)
    (dicts : list (gmap string pyval)) :
  check_response response = (t, Return dicts) →
  value_at response "homeworks" = Some (PList (PDict <$> dicts)).
Proof.
  rewrite check_response_run_checks.
  destruct response as [| | | | |items|d]; try discriminate.
  unfold validator_checks, run_checks, homeworks_of.
  cbn [check_is_mapping check_has_homeworks check_has_current_date
       check_homeworks_is_sequence check_elements_are_mappings
       check_current_date_is_integer has_key value_at isinstance_dict].
  destruct (bool_decide ("homeworks" ∈ dom d)); [|discriminate].
  destruct (bool_decide ("current_date" ∈ dom d)); [|discriminate].
  destruct (d !! "homeworks") as [[| | | | |items|]|]; try discriminate.
  cbn [isinstance_list]. rewrite all_dicts_forallb.
  destruct (all_dicts items) as [ds|] eqn:Hds; cbn; [|discriminate].
  destruct (d !! "current_date") as [cd|]; [|discriminate].
  destruct (isinstance_int cd); [|discriminate].
  intros [= _ <-]. f_equal. f_equal. by apply all_dicts_unchanged.
Qed.

(** C2 (as amended): the validator runs six checks in the order of
    [validator_checks], stopping at the first that fails: the input is a
    mapping (else [TypeError]), it has the key [homeworks] (else [KeyError]),
    it has the key [current_date] (else the [KeyError] of the lookup on line
    179), [homeworks] is a list (else [TypeError]), every element of it is a
    mapping (else [TypeError]), [current_date] is an integer (else
    [TypeError]). In particular every mapping that has [homeworks] and lacks
    [current_date] is rejected with [KeyError('current_date')], whatever the
    value of [homeworks]. *)
Theorem check_response_order :
  (∀ response : pyval,
     check_response response
     = run_checks (validator_checks response) (mret (homeworks_of response)))
  ∧ (∀ (d : gmap string pyval) (homeworks : pyval),
       check_response (PDict (<["homeworks" := homeworks]> (delete "current_date" d)))
       = raise (Exn KeyError (PStr "current_date") None)).
Proof using Type.
  split; [apply check_response_run_checks|].
  intros d homeworks. unfold check_response.
  rewrite bool_decide_eq_true_2
    by (apply elem_of_dom; rewrite lookup_insert_eq; by eexists).
  cbn [negb]. unfold getitem.
  rewrite lookup_insert_eq.
  rewrite lookup_insert_ne by done. rewrite lookup_delete_eq.
  reflexivity.
Qed.

(** C2 (as stated) fails: for the mappings [{"homeworks": []}] and
    [{"homeworks": 5}], which have [homeworks] and lack [current_date], the
    five checks in the specified order end in a type mismatch (of the fifth
    check for the first, of the third for the second), and the code raises
    the missing-key error [KeyError('current_date')] for both. *)
Lemma check_response_not_as_specified :
  check_response without_date
  = ([], Raise (Exn KeyError (PStr "current_date") None))
  ∧ run_checks (validator_checks_as_specified without_date)
               (mret (homeworks_of without_date))
    = ([Log ModuleLogger ERROR "Ожидаемый тип данных - int, получен <class 'dict'>."],
       Raise (Exn TypeError (PStr "Тип данных не является целым числом.") None))
  ∧ check_response without_date_or_list
    = ([], Raise (Exn KeyError (PStr "current_date") None))
  ∧ run_checks (validator_checks_as_specified without_date_or_list)
               (mret (homeworks_of without_date_or_list))
    = ([Log ModuleLogger ERROR "Ожидаемый тип данных - list, получен <class 'dict'>."],
       Raise (Exn TypeError (PStr "Тип данных не является списком словарей.") None))
  ∧ check_response without_date
    ≠ run_checks (validator_checks_as_specified without_date)
                 (mret (homeworks_of without_date))
  ∧ check_response without_date_or_list
    ≠ run_checks (validator_checks_as_specified without_date_or_list)
                 (mret (homeworks_of without_date_or_list)).
Proof.
  split; [by vm_compute|]. split; [by vm_compute|].
  split; [by vm_compute|]. split; [by vm_compute|].
  split; intros H; vm_compute in H; discriminate H.
Qed.

(** ** The status resolver *)

Lemma HOMEWORK_VERDICTS_dom :
  dom HOMEWORK_VERDICTS = ({[ "approved"; "reviewing"; "rejected" ]} : gset string).
Proof. unfold HOMEWORK_VERDICTS. rewrite !dom_insert_L, dom_empty_L. set_solver. Qed.

Lemma required_keys_present (homework : gmap string pyval) :
  is_Some (homework !! "homework_name") → is_Some (homework !! "status") →
  bool_decide (required_keys ⊆ dom homework) = true.
Proof.
  intros Hn Hs. apply bool_decide_eq_true_2.
  intros key. unfold required_keys.
  rewrite elem_of_union, !elem_of_singleton, elem_of_dom.
  by intros [-> | ->].
Qed.

Lemma contains_unknown (status : pyval) :
  hashable status → ¬ known_status status →
  contains HOMEWORK_VERDICTS status = mret false.
Proof.
  intros Hh Hk. destruct status; try done. cbn.
  rewrite bool_decide_eq_false_2; [done|]. intros Hin. apply Hk. by eexists.
Qed.

(** Whatever the work item, no verdict comes out unless its status is a
    key of the table. *)
Lemma parse_status_rejects (homework : gmap string pyval) :
  (¬ ∃ status, homework !! "status" = Some status ∧ known_status status) →
  ∃ e, outcome_of (parse_status homework) = Raise e.
Proof using Type.
  intros Hno. unfold parse_status.
  destruct (bool_decide (required_keys ⊆ dom homework)) eqn:Hkeys; cbn [negb];
    [|by eexists].
  apply bool_decide_eq_true_1 in Hkeys.
  assert (is_Some (homework !! "status")) as [status Hs].
  { apply elem_of_dom, Hkeys. unfold required_keys.
    apply elem_of_union_r. by apply elem_of_singleton. }
  unfold getitem. rewrite Hs.
  destruct status as [| | | |s| |]; try (cbn; by eexists).
  cbn. destruct (bool_decide (s ∈ dom HOMEWORK_VERDICTS)) eqn:Hin; cbn;
    [|by eexists].
  exfalso. apply Hno. exists (PStr s). split; [done|].
  exists s. split; [done|]. by apply bool_decide_eq_true_1 in Hin.
Qed.

(** C7: the work item [{"homework_name": "task1", "status": "approved"}]
    resolves to the text [Изменился статус проверки работы "task1". Работа
    проверена: ревьюеру всё понравилось. Ура!]; every work item with both
    keys whose status is a key of the table (approved, reviewing, rejected,
    with exactly the three phrases) resolves to the prefix, the quoted name
    and that phrase; every work item with both keys whose status is any other
    hashable value is rejected with the unknown-status [KeyError] naming that
    value; and no work item whose status is outside the table yields a
    verdict. *)
Theorem parse_status_verdict :
  parse_status task1_approved
  = ([Log ModuleLogger INFO task1_message], Return task1_message)
  ∧ map_to_list HOMEWORK_VERDICTS
    ≡ₚ [("approved", "Работа проверена: ревьюеру всё понравилось. Ура!");
        ("reviewing", "Работа взята на проверку ревьюером.");
        ("rejected", "Работа проверена: у ревьюера есть замечания.")]
  ∧ dom HOMEWORK_VERDICTS = ({[ "approved"; "reviewing"; "rejected" ]} : gset string)
  ∧ (∀ (homework : gmap string pyval) (name status phrase : string),
       homework !! "homework_name" = Some (PStr name) →
       homework !! "status" = Some (PStr status) →
       HOMEWORK_VERDICTS !! status = Some phrase →
       parse_status homework
       = ([Log ModuleLogger INFO
             ("Изменился статус проверки работы "
              +:+ dquote +:+ name +:+ dquote +:+ ". " +:+ phrase)],
          Return ("Изменился статус проверки работы "
                  +:+ dquote +:+ name +:+ dquote +:+ ". " +:+ phrase)))
  ∧ (∀ (homework : gmap string pyval) (status : pyval),
       is_Some (homework !! "homework_name") →
       homework !! "status" = Some status →
       hashable status → ¬ known_status status →
       parse_status homework
       = ([Log ModuleLogger ERROR ("Неизвестный статус - " +:+ py_str status)],
          Raise (Exn KeyError
                   (PStr ("Неизвестный статус - " +:+ py_str status)) None)))
  ∧ (∀ homework : gmap string pyval,
       (¬ ∃ status, homework !! "status" = Some status ∧ known_status status) →
       ∃ e, outcome_of (parse_status homework) = Raise e).
Proof using Type.
  split; [by vm_compute|]. split.
  { unfold HOMEWORK_VERDICTS.
    rewrite !map_to_list_insert, map_to_list_empty by (by vm_compute). done. }
  split; [apply HOMEWORK_VERDICTS_dom|].
  split; [|split; [|apply parse_status_rejects]].
  - intros homework name status phrase Hn Hs Hv. unfold parse_status.
    rewrite required_keys_present by eauto. cbn [negb].
    unfold getitem. rewrite Hs, Hn. cbn.
    rewrite bool_decide_eq_true_2 by (apply elem_of_dom; eauto).
    cbn. rewrite Hv. reflexivity.
  - intros homework status Hn Hs Hh Hk. unfold parse_status.
    rewrite required_keys_present by eauto. cbn [negb].
    unfold getitem. rewrite Hs. cbn [mbind M_bind mret M_ret].
    rewrite contains_unknown by done. reflexivity.
Qed.

(** ** Credentials *)

(** C9: [check_tokens] returns [True] when the three credentials are set and
    [None] (never [False]) when one is missing, so its result is truthy
    exactly when all three are set. *)
Theorem check_tokens_result :
  (is_Some PRACTICUM_TOKEN ∧ is_Some TELEGRAM_TOKEN ∧ is_Some TELEGRAM_CHAT_ID →
   check_tokens = PBool true)
  ∧ (¬ (is_Some PRACTICUM_TOKEN ∧ is_Some TELEGRAM_TOKEN ∧ is_Some TELEGRAM_CHAT_ID) →
     check_tokens = PNone)
  ∧ check_tokens ≠ PBool false
  ∧ (truthy check_tokens = true
     ↔ is_Some PRACTICUM_TOKEN ∧ is_Some TELEGRAM_TOKEN ∧ is_Some TELEGRAM_CHAT_ID).
Proof.
  unfold check_tokens.
  destruct PRACTICUM_TOKEN as [p|], TELEGRAM_TOKEN as [t|], TELEGRAM_CHAT_ID as [c|];
    cbn; repeat split; try done; try (by intros [?%is_Some_None ?]);
    try (by intros (? & ?%is_Some_None & ?)); try (by intros (? & ? & ?%is_Some_None));
    try (intros H; exfalso; apply H; eauto).
Qed.

(** ** The notifier *)

Lemma send_message_cases (bot : world) (message : string) :
  send_message bot message
  = match bot_send_message bot TELEGRAM_CHAT_ID message with
    | None =>
        ([BotSend TELEGRAM_CHAT_ID message true;
          Log RootLogger DEBUG ("Отправлено сообщение: " +:+ message)], Return tt)
    | Some e =>
        if isinstance e TelegramError then
          ([BotSend TELEGRAM_CHAT_ID message false;
            Log RootLogger ERROR ("Сообщение не удалось отправить: " +:+ message
                                  +:+ ". Причина: " +:+ exn_str e)],
           Raise (Exn SendMessageError
                    (PStr ("Не удалось отправить сообщение: " +:+ exn_str e)) (Some e)))
        else ([BotSend TELEGRAM_CHAT_ID message false], Raise e)
    end.
Proof.
  unfold send_message, call_bot.
  destruct (bot_send_message bot TELEGRAM_CHAT_ID message) as [e|]; [|reflexivity].
  cbn. destruct (isinstance e TelegramError); reflexivity.
Qed.

(** C3: when the Telegram call fails with a [TelegramError] (the class of
    the library's transport failures, [NetworkError] and [TimedOut]
    included), [send_message] logs it and raises [SendMessageError], whose
    text ends with the text of the failure and whose context is the failure
    itself; nothing else leaves the function. *)
Theorem send_message_failure (bot : world) (message : string) (e : exn) :
  bot_send_message bot TELEGRAM_CHAT_ID message = Some e →
  isinstance e TelegramError = true →
  send_message bot message
  = ([BotSend TELEGRAM_CHAT_ID message false;
      Log RootLogger ERROR ("Сообщение не удалось отправить: " +:+ message
                            +:+ ". Причина: " +:+ exn_str e)],
     Raise (Exn SendMessageError
              (PStr ("Не удалось отправить сообщение: " +:+ exn_str e)) (Some e))).
Proof. intros Hbot He. rewrite send_message_cases, Hbot, He. reflexivity. Qed.

(** ** The fetcher *)

Lemma get_api_answer_cases (w : world) (ts : Z) :
  get_api_answer w ts
  = let caught (t : list event) (e : exn) : M pyval :=
      if isinstance e RequestException then
        (t ++ [Log RootLogger ERROR
                 ("Ошибка выполнения запроса к " +:+ ENDPOINT +:+ ": " +:+ exn_str e)],
         Raise (Exn EndPointError
                  (PStr ("Ошибка выполнения запроса к " +:+ ENDPOINT +:+ ": "
                         +:+ exn_str e)) (Some e)))
      else if isinstance e ConnectionError then
        (t ++ [Log ModuleLogger ERROR
                 ("Не удалось установить соединение с " +:+ ENDPOINT +:+ ":"
                  +:+ " " +:+ exn_str e +:+ ". Проверьте интернет-соединение.")],
         Raise (Exn ConnectionError
                  (PStr ("Не удалось установить соединение с " +:+ ENDPOINT +:+ ":"
                         +:+ " " +:+ exn_str e +:+ ". Проверьте интернет-соединение."))
                  (Some e)))
      else (t, Raise e) in
    match requests_get w ENDPOINT HEADERS ts with
    | inl e => caught [HttpGet ENDPOINT HEADERS ts] e
    | inr response =>
        if status_code response =? HTTPStatus_OK then
          match json response with
          | Return body => ([HttpGet ENDPOINT HEADERS ts], Return body)
          | Raise e => caught [HttpGet ENDPOINT HEADERS ts] e
          end
        else
          ([HttpGet ENDPOINT HEADERS ts;
            Log ModuleLogger ERROR
              ("Не удалось получить ответ от " +:+ ENDPOINT +:+ " "
               +:+ "с параметрами dict_values([" +:+ str_of_int ts +:+ "]). "
               +:+ "Код запроса - " +:+ str_of_int (status_code response) +:+ ".")],
           Raise (Exn EndpointStatusError
                    (PStr ("Не удалось получить ответ от " +:+ ENDPOINT +:+ " "
                           +:+ "с параметрами dict_values([" +:+ str_of_int ts +:+ "]). "
                           +:+ "Код запроса - " +:+ str_of_int (status_code response)
                           +:+ ".")) None))
    end.
Proof.
  unfold get_api_answer, http_get.
  destruct (requests_get w ENDPOINT HEADERS ts) as [e|response].
  - cbn. destruct (isinstance e RequestException); [reflexivity|].
    destruct (isinstance e ConnectionError); reflexivity.
  - cbn. destruct (status_code response =? HTTPStatus_OK); cbn; [|reflexivity].
    destruct (json response) as [body|e]; cbn; [reflexivity|].
    destruct (isinstance e RequestException); [reflexivity|].
    destruct (isinstance e ConnectionError); reflexivity.
Qed.

(** C10: every request-level exception raised by the HTTP call (an instance
    of [requests.RequestException], which the connection failures of
    [requests] are) is handled by the first clause and comes out as
    [EndPointError]; the clause for the builtin [ConnectionError] is not the
    one that runs for it. *)
Theorem get_api_answer_request_exception (w : world) (ts : Z) (e : exn) :
  requests_get w ENDPOINT HEADERS ts = inl e →
  isinstance e RequestException = true →
  get_api_answer w ts
  = ([HttpGet ENDPOINT HEADERS ts;
      Log RootLogger ERROR
        ("Ошибка выполнения запроса к " +:+ ENDPOINT +:+ ": " +:+ exn_str e)],
     Raise (Exn EndPointError
              (PStr ("Ошибка выполнения запроса к " +:+ ENDPOINT +:+ ": "
                     +:+ exn_str e)) (Some e)))
  ∧ issubclass requests_ConnectionError RequestException = true
  ∧ issubclass requests_ConnectionError ConnectionError = false
  ∧ (∀ e', outcome_of (get_api_answer w ts) = Raise e' →
           exn_cls e' = EndPointError ∧ exn_cls e' ≠ ConnectionError).
Proof.
  intros Hget He. rewrite get_api_answer_cases, Hget. cbv beta zeta. rewrite He.
  split; [reflexivity|]. split; [reflexivity|]. split; [reflexivity|].
  intros e' [= <-]. by split.
Qed.

(** ** Traces of the steps *)

Lemma bot_sends_app (t1 t2 : list event) :
  bot_sends (t1 ++ t2) = bot_sends t1 ++ bot_sends t2.
Proof. apply omap_app. Qed.

Lemma from_dates_app (t1 t2 : list event) :
  from_dates (t1 ++ t2) = from_dates t1 ++ from_dates t2.
Proof. apply omap_app. Qed.

Lemma sleeps_app (t1 t2 : list event) : sleeps (t1 ++ t2) = sleeps t1 ++ sleeps t2.
Proof. apply omap_app. Qed.

Lemma only_logs_silent (t : list event) :
  only_logs t → bot_sends t = [] ∧ from_dates t = [] ∧ sleeps t = [].
Proof.
  induction 1 as [|ev t Hev _ IH]; [done|].
  by destruct ev.
Qed.

Lemma tame_ret {A} (a : A) : tame (mret a : M A).
Proof. split; [constructor|]. intros e [=]. Qed.

Lemma tame_raise {A} (e : exn) : isinstance e Exception = true → tame (raise e : M A).
Proof. intros He. split; [constructor|]. by intros e' [= <-]. Qed.

Lemma tame_log (lg : logger_id) (lvl : level) (msg : string) :
  tame (emit (Log lg lvl msg)).
Proof. split; [by repeat constructor|]. intros e [=]. Qed.

Lemma tame_bind {A B} (m : M A) (k : A → M B) :
  tame m → (∀ a, tame (k a)) → tame (m ≫= k).
Proof.
  unfold tame, trace_of, outcome_of, only_logs.
  destruct m as [t [a|e]]; intros [Ht He] Hk; cbn in *.
  - destruct (Hk a) as [Ht' He']. destruct (k a) as [t' r]. cbn in *.
    split; [apply Forall_app; by split|done].
  - split; [done|]. intros e' [= <-]. by apply He.
Qed.

Ltac tame_step :=
  match goal with
  | |- tame (mbind _ _) => apply tame_bind; [|intros ?]
  | |- tame (mret _) => apply tame_ret
  | |- tame (raise _) => apply tame_raise; reflexivity
  | |- tame (logger_error _) => apply tame_log
  | |- tame (logger_info _) => apply tame_log
  | |- tame (if ?b then _ else _) => destruct b
  | |- tame (match ?x with _ => _ end) => destruct x
  end.

Lemma getitem_tame (d : gmap string pyval) (key : string) : tame (getitem d key).
Proof. unfold getitem. repeat tame_step. Qed.

Lemma contains_tame (key : pyval) : tame (contains HOMEWORK_VERDICTS key).
Proof. unfold contains. repeat tame_step. Qed.

Lemma subscript_tame (key : pyval) : tame (subscript HOMEWORK_VERDICTS key).
Proof. unfold subscript. repeat tame_step. Qed.

(** The validator only logs, and what it raises is an [Exception]. *)
Lemma check_response_tame (response : pyval) : tame (check_response response).
Proof.
  unfold check_response.
  repeat first [apply getitem_tame | tame_step].
Qed.

(** So does the resolver. *)
Lemma parse_status_tame (homework : gmap string pyval) : tame (parse_status homework).
Proof.
  unfold parse_status.
  repeat first [apply getitem_tame | apply contains_tame | apply subscript_tame
               | tame_step].
Qed.

(** The fetcher makes one request, with the timestamp it was given, and
    otherwise only logs. *)
Lemma get_api_answer_trace (w : world) (ts : Z) :
  ∃ logs, trace_of (get_api_answer w ts) = HttpGet ENDPOINT HEADERS ts :: logs
          ∧ only_logs logs.
Proof.
  rewrite get_api_answer_cases. cbv beta zeta.
  destruct (requests_get w ENDPOINT HEADERS ts) as [e|response].
  - destruct (isinstance e RequestException);
      [|destruct (isinstance e ConnectionError)];
      eexists; (split; [reflexivity|by repeat constructor]).
  - destruct (status_code response =? HTTPStatus_OK);
      [destruct (json response) as [body|e];
       [|destruct (isinstance e RequestException);
         [|destruct (isinstance e ConnectionError)]]|];
      eexists; (split; [reflexivity|by repeat constructor]).
Qed.

Lemma get_api_answer_raises (w : world) (ts : Z) (e : exn) :
  raises_only Exception w →
  outcome_of (get_api_answer w ts) = Raise e → isinstance e Exception = true.
Proof.
  intros (Hget & Hjson & _). rewrite get_api_answer_cases. cbv beta zeta.
  destruct (requests_get w ENDPOINT HEADERS ts) as [e0|response] eqn:Hr.
  - apply Hget in Hr.
    destruct (isinstance e0 RequestException);
      [|destruct (isinstance e0 ConnectionError)]; intros [= <-]; done.
  - destruct (status_code response =? HTTPStatus_OK); [|by intros [= <-]].
    destruct (json response) as [body|e0] eqn:Hj; [done|].
    apply (Hjson _ _ _ _ _ Hr) in Hj.
    destruct (isinstance e0 RequestException);
      [|destruct (isinstance e0 ConnectionError)]; intros [= <-]; done.
Qed.

Lemma send_message_raises (w : world) (message : string) (e : exn) :
  raises_only Exception w →
  outcome_of (send_message w message) = Raise e → isinstance e Exception = true.
Proof.
  intros (_ & _ & Hbot). rewrite send_message_cases.
  destruct (bot_send_message w TELEGRAM_CHAT_ID message) as [e0|] eqn:Hb; [|done].
  apply Hbot in Hb.
  destruct (isinstance e0 TelegramError); intros [= <-]; done.
Qed.

Lemma send_message_sends (w : world) (message : string) :
  ∃ d, bot_sends (trace_of (send_message w message)) = [(message, d)]
       ∧ from_dates (trace_of (send_message w message)) = []
       ∧ sleeps (trace_of (send_message w message)) = []
       ∧ (d = true ↔ outcome_of (send_message w message) = Return tt).
Proof.
  rewrite send_message_cases.
  destruct (bot_send_message w TELEGRAM_CHAT_ID message) as [e0|].
  - exists false. destruct (isinstance e0 TelegramError); by repeat split.
  - exists true. by repeat split.
Qed.

(** ** Reading the trace of a composed computation *)

Lemma bot_sends_cons (ev : event) (t : list event) :
  bot_sends (ev :: t)
  = match ev with BotSend _ text d => [(text, d)] | _ => [] end ++ bot_sends t.
Proof. by destruct ev. Qed.

Lemma from_dates_cons (ev : event) (t : list event) :
  from_dates (ev :: t)
  = match ev with HttpGet _ _ d => [d] | _ => [] end ++ from_dates t.
Proof. by destruct ev. Qed.

Lemma sleeps_cons (ev : event) (t : list event) :
  sleeps (ev :: t) = match ev with Sleep n => [n] | _ => [] end ++ sleeps t.
Proof. by destruct ev. Qed.

Lemma bot_sends_nil : bot_sends [] = [].
Proof. reflexivity. Qed.

Lemma from_dates_nil : from_dates [] = [].
Proof. reflexivity. Qed.

Lemma sleeps_nil : sleeps [] = [].
Proof. reflexivity. Qed.

#[local] Arguments bot_sends : simpl never.
#[local] Arguments from_dates : simpl never.
#[local] Arguments sleeps : simpl never.

(** Push the three readers through a trace built with [::] and [++], then
    use what is known of the pieces. *)
Ltac read_trace :=
  unfold trace_of, outcome_of in *; cbn [fst snd] in *;
  repeat progress
    rewrite ?bot_sends_app, ?from_dates_app, ?sleeps_app,
      ?bot_sends_cons, ?from_dates_cons, ?sleeps_cons,
      ?bot_sends_nil, ?from_dates_nil, ?sleeps_nil;
  repeat match goal with
         | H : bot_sends _ = _ |- _ => rewrite H
         | H : from_dates _ = _ |- _ => rewrite H
         | H : sleeps _ = _ |- _ => rewrite H
         end;
  cbn [app]; rewrite ?app_nil_r.

(** ** One cycle *)

Lemma iteration_success (w : world) (st : loop_state) (t : list event)
    (new_status : string) :
  cycle_body w st = (t, Return new_status) →
  iteration w st
  = (t ++ [Sleep RETRY_PERIOD],
     Return {| timestamp := timestamp st; last_status := new_status |}).
Proof.
  intros H. unfold iteration. rewrite H. cbn. by rewrite app_nil_r.
Qed.

Lemma iteration_failure (w : world) (st : loop_state) (t : list event) (e : exn) :
  cycle_body w st = (t, Raise e) → isinstance e Exception = true →
  iteration w st
  = (t ++ [Log ModuleLogger ERROR ("Сбой в работе программы: " +:+ exn_str e);
           Sleep RETRY_PERIOD],
     Return st).
Proof.
  intros H He. unfold iteration. rewrite H. cbn. rewrite He. cbn.
  by rewrite <- app_assoc.
Qed.

(** What is not an [Exception] leaves the loop, after the sleep of the
    [finally] clause. *)
Lemma iteration_escape (w : world) (st : loop_state) (t : list event) (e : exn) :
  cycle_body w st = (t, Raise e) → isinstance e Exception = false →
  iteration w st = (t ++ [Sleep RETRY_PERIOD], Raise e).
Proof. intros H He. unfold iteration. rewrite H. cbn. by rewrite He. Qed.

(** The cycle of a resolved verdict: nothing more when it is the one
    remembered, one call of the notifier otherwise. *)
Lemma cycle_body_resolved (w : world) (st : loop_state) (V : string)
    (t : list event) :
  resolves_to w st V t →
  cycle_body w st
  = if String.eqb V (last_status st) then (t, Return (last_status st))
    else (t ++ trace_of (send_message w V),
          match outcome_of (send_message w V) with
          | Return _ => Return V
          | Raise e => Raise e
          end).
Proof.
  intros (t1 & response & t2 & first & rest & t3 & H1 & H2 & H3 & ->).
  unfold cycle_body. rewrite H1. cbn. rewrite H2. cbn. rewrite H3. cbn.
  destruct (String.eqb V (last_status st)); cbn.
  - by rewrite !app_nil_r.
  - destruct (send_message w V) as [ts [[]|e]]; cbn;
      by rewrite ?app_nil_r, ?app_assoc.
Qed.

Lemma resolves_to_silent (w : world) (st : loop_state) (V : string) (t : list event) :
  resolves_to w st V t →
  bot_sends t = [] ∧ from_dates t = [timestamp st] ∧ sleeps t = [].
Proof.
  intros (t1 & response & t2 & first & rest & t3 & H1 & H2 & H3 & ->).
  destruct (get_api_answer_trace w (timestamp st)) as (logs & Ht1 & Hlogs).
  rewrite H1 in Ht1. cbn in Ht1. subst t1.
  destruct (check_response_tame response) as [Hl2 _]. rewrite H2 in Hl2.
  destruct (parse_status_tame first) as [Hl3 _]. rewrite H3 in Hl3.
  cbn in Hl2, Hl3.
  apply only_logs_silent in Hlogs as (? & ? & ?).
  apply only_logs_silent in Hl2 as (? & ? & ?).
  apply only_logs_silent in Hl3 as (? & ? & ?).
  by read_trace.
Qed.

Ltac spec_done :=
  repeat split;
  first [done | by left | by intros ? [=] | by (intros ? [= <-]; left) | by auto].

(** What one run of the [try] body does: one request with the stored
    timestamp, no sleep, at most one call of the notifier, and that with a text
    other than the remembered one; the remembered text changes only to a text
    that was delivered. *)
Lemma cycle_body_spec (w : world) (st : loop_state) :
  from_dates (trace_of (cycle_body w st)) = [timestamp st]
  ∧ sleeps (trace_of (cycle_body w st)) = []
  ∧ (bot_sends (trace_of (cycle_body w st)) = []
     ∨ ∃ m d, bot_sends (trace_of (cycle_body w st)) = [(m, d)] ∧ m ≠ last_status st)
  ∧ (∀ new_status, outcome_of (cycle_body w st) = Return new_status →
       new_status = last_status st
       ∨ bot_sends (trace_of (cycle_body w st)) = [(new_status, true)]).
Proof.
  unfold cycle_body.
  destruct (get_api_answer_trace w (timestamp st)) as (logs & Ht1 & Hlogs).
  apply only_logs_silent in Hlogs as (Hb1 & Hd1 & Hs1).
  destruct (get_api_answer w (timestamp st)) as [t1 [response|e1]];
    cbn in Ht1; subst t1; cbn; [|read_trace; spec_done].
  destruct (check_response_tame response) as [Hl2 _].
  apply only_logs_silent in Hl2 as (Hb2 & Hd2 & Hs2).
  destruct (check_response response) as [t2 [[|first rest]|e2]]; cbn in *;
    [| |read_trace; spec_done].
  - destruct (String.eqb_spec (last_status st) "") as [Hls|Hls]; cbn;
      [|read_trace; spec_done].
    pose proof (send_message_sends w NO_WORK) as (d & Hb & Hd & Hs & Hok).
    destruct (send_message w NO_WORK) as [ts [[]|e]]; cbn in *; read_trace;
      (repeat split;
       [right; exists NO_WORK, d; rewrite Hls; by split
       |first [by intros ? [=] | by (intros ? [= <-]; left)]]).
  - destruct (parse_status_tame first) as [Hl3 _].
    apply only_logs_silent in Hl3 as (Hb3 & Hd3 & Hs3).
    destruct (parse_status first) as [t3 [V|e3]]; cbn in *;
      [|read_trace; spec_done].
    destruct (String.eqb_spec V (last_status st)) as [HV|HV]; cbn;
      [read_trace; spec_done|].
    pose proof (send_message_sends w V) as (d & Hb & Hd & Hs & Hok).
    destruct (send_message w V) as [ts [[]|e]]; cbn in *; read_trace;
      (repeat split; [right; exists V, d; by split | ]).
    + intros ? [= <-]. right. by rewrite (proj2 Hok).
    + intros ? [=].
Qed.

(** What one turn of the loop does. *)
Lemma iteration_spec (w : world) (st : loop_state) :
  from_dates (trace_of (iteration w st)) = [timestamp st]
  ∧ sleeps (trace_of (iteration w st)) = [RETRY_PERIOD]
  ∧ (bot_sends (trace_of (iteration w st)) = []
     ∨ ∃ m d, bot_sends (trace_of (iteration w st)) = [(m, d)] ∧ m ≠ last_status st)
  ∧ (∀ st', outcome_of (iteration w st) = Return st' →
       timestamp st' = timestamp st
       ∧ (st' = st
          ∨ bot_sends (trace_of (iteration w st)) = [(last_status st', true)]))
  ∧ (∀ e, outcome_of (iteration w st) = Raise e → isinstance e Exception = false).
Proof.
  destruct (cycle_body_spec w st) as (Hd & Hs & Hb & Hr).
  destruct (cycle_body w st) as [t [new_status|e]] eqn:Hc;
    unfold trace_of, outcome_of in Hd, Hs, Hb, Hr; cbn [fst snd] in Hd, Hs, Hb, Hr.
  - rewrite (iteration_success _ _ _ _ Hc).
    destruct (Hr _ eq_refl) as [-> | Hsent].
    + assert (∀ st', Return {| timestamp := timestamp st;
                               last_status := last_status st |} = Return st' →
                     timestamp st' = timestamp st ∧ st' = st) as Hsame
        by (intros ? [= <-]; by destruct st).
      destruct Hb as [Hb | (m & d & Hb & Hm)]; read_trace;
        (split; [done|split; [done|split; [by eauto|split; [|by intros ? [=]]]]]);
        intros st' Hst'; destruct (Hsame _ Hst'); auto.
    + destruct Hb as [Hb | (m & d & Hb & Hm)]; [by rewrite Hb in Hsent|].
      rewrite Hb in Hsent. injection Hsent as -> ->. clear Hr.
      read_trace.
      split; [done|split; [done|split; [by eauto|split; [|by intros ? [=]]]]].
      intros st' [= <-]. cbn. auto.
  - destruct (isinstance e Exception) eqn:He.
    + rewrite (iteration_failure _ _ _ _ Hc He).
      destruct Hb as [Hb | (m & d & Hb & Hm)]; read_trace;
        (split; [done|split; [done|split; [by eauto|split; [|by intros ? [=]]]]]);
        intros st' [= <-]; auto.
    + rewrite (iteration_escape _ _ _ _ Hc He).
      destruct Hb as [Hb | (m & d & Hb & Hm)]; read_trace;
        (split; [done|split; [done|split; [by eauto|split; [by intros ? [=]|]]]]);
        by intros ? [= <-].
Qed.

(** A failed call of the notifier leaves the loop state as it was. *)
Lemma iteration_failed_send (w : world) (st st' : loop_state) (m : string) :
  (m, false) ∈ bot_sends (trace_of (iteration w st)) →
  outcome_of (iteration w st) = Return st' → st' = st.
Proof.
  intros Hin Hret.
  destruct (iteration_spec w st) as (_ & _ & _ & Hr & _).
  destruct (Hr _ Hret) as [_ [-> | Hsent]]; [done|].
  rewrite Hsent in Hin. by apply list_elem_of_singleton in Hin.
Qed.

(** The remembered text changes only to a text that was just delivered. *)
Lemma iteration_update (w : world) (st st' : loop_state) :
  outcome_of (iteration w st) = Return st' →
  last_status st' ≠ last_status st →
  bot_sends (trace_of (iteration w st)) = [(last_status st', true)].
Proof.
  intros Hret Hne.
  destruct (iteration_spec w st) as (_ & _ & _ & Hr & _).
  destruct (Hr _ Hret) as [_ [-> | Hsent]]; done.
Qed.

(** With external calls that raise only instances of [Exception], so does
    the [try] body. *)
Lemma cycle_body_raises (w : world) (st : loop_state) (e : exn) :
  raises_only Exception w →
  outcome_of (cycle_body w st) = Raise e → isinstance e Exception = true.
Proof.
  intros Hw. unfold cycle_body.
  pose proof (get_api_answer_raises w (timestamp st)) as H1.
  destruct (get_api_answer w (timestamp st)) as [t1 [response|e1]]; cbn in *;
    [|intros [= <-]; by apply H1].
  destruct (check_response_tame response) as [_ H2].
  destruct (check_response response) as [t2 [[|first rest]|e2]]; cbn in *;
    [| |intros [= <-]; by apply H2].
  - destruct (String.eqb (last_status st) ""); cbn; [|done].
    pose proof (send_message_raises w NO_WORK) as H4.
    destruct (send_message w NO_WORK) as [ts [[]|e4]]; cbn in *; [done|].
    intros [= <-]. by apply H4.
  - destruct (parse_status_tame first) as [_ H3].
    destruct (parse_status first) as [t3 [V|e3]]; cbn in *;
      [|intros [= <-]; by apply H3].
    destruct (String.eqb V (last_status st)); cbn; [done|].
    pose proof (send_message_raises w V) as H4.
    destruct (send_message w V) as [ts [[]|e4]]; cbn in *; [done|].
    intros [= <-]. by apply H4.
Qed.

(** ** The loop *)

Lemma poll_cons (w : world) (ws : list world) (st : loop_state) :
  poll (w :: ws) st = iteration w st ≫= poll ws.
Proof. reflexivity. Qed.

(** Every request of the loop carries the timestamp the loop started with,
    one request per turn, and every turn ends with the same sleep. *)
Lemma poll_spec (ws : list world) (st : loop_state) :
  from_dates (trace_of (poll ws st))
  = replicate (length (sleeps (trace_of (poll ws st)))) (timestamp st)
  ∧ sleeps (trace_of (poll ws st))
    = replicate (length (sleeps (trace_of (poll ws st)))) RETRY_PERIOD
  ∧ (∀ st', outcome_of (poll ws st) = Return st' →
       timestamp st' = timestamp st
       ∧ length (sleeps (trace_of (poll ws st))) = length ws).
Proof.
  revert st. induction ws as [|w ws IH]; intros st.
  - cbn. split; [done|]. split; [done|]. by intros ? [= <-].
  - rewrite poll_cons.
    destruct (iteration_spec w st) as (Hd & Hs & _ & Hr & _).
    destruct (iteration w st) as [t [st1|e]];
      unfold trace_of, outcome_of in Hd, Hs, Hr; cbn [fst snd] in Hd, Hs, Hr.
    + destruct (Hr _ eq_refl) as [Hts _].
      destruct (IH st1) as (IHd & IHs & IHr). rewrite Hts in IHd.
      cbn [mbind M_bind]. destruct (poll ws st1) as [t' r'].
      unfold trace_of, outcome_of in *; cbn [fst snd] in *.
      rewrite from_dates_app, sleeps_app, Hd, Hs. cbn.
      split; [by f_equal|]. split; [by f_equal|].
      intros st' Hret. destruct (IHr _ Hret) as [-> ->]. by rewrite Hts.
    + cbn. unfold trace_of, outcome_of; cbn [fst snd].
      rewrite Hd, Hs. split; [done|]. split; [done|]. by intros ? [=].
Qed.

(** The loop outlives every turn whose external calls raise only instances
    of [Exception]. *)
Lemma poll_continues (ws : list world) (st : loop_state) :
  Forall (raises_only Exception) ws →
  ∃ st', outcome_of (poll ws st) = Return st'.
Proof.
  intros Hws. revert st. induction Hws as [|w ws Hw _ IH]; intros st.
  - by eexists.
  - rewrite poll_cons.
    destruct (iteration_spec w st) as (_ & _ & _ & _ & He).
    pose proof (cycle_body_raises w st) as Hc.
    destruct (cycle_body w st) as [t [new_status|e]] eqn:Hbody.
    + rewrite (iteration_success _ _ _ _ Hbody). cbn [mbind M_bind].
      destruct (IH {| timestamp := timestamp st; last_status := new_status |})
        as [st' Hst'].
      destruct (poll ws _) as [t' r']. by exists st'.
    + rewrite (iteration_failure _ _ _ _ Hbody) by (by apply Hc).
      cbn [mbind M_bind]. destruct (IH st) as [st' Hst'].
      destruct (poll ws st) as [t' r']. by exists st'.
Qed.

(** After the text [V] is remembered, the notifier is called with [V] again
    only after another text has been delivered. *)
Lemma poll_resend (ws : list world) (st : loop_state) (V : string)
    (before after : list (string * bool)) (d : bool) :
  last_status st = V →
  bot_sends (trace_of (poll ws st)) = before ++ (V, d) :: after →
  ∃ V', V' ≠ V ∧ (V', true) ∈ before.
Proof.
  revert st before. induction ws as [|w ws IH]; intros st before HV Hsends.
  - by destruct before.
  - rewrite poll_cons in Hsends.
    destruct (iteration_spec w st) as (_ & _ & Hb & Hr & _).
    destruct (iteration w st) as [t [st1|e]];
      unfold trace_of, outcome_of in Hb, Hr; cbn [fst snd] in Hb, Hr.
    + destruct (Hr _ eq_refl) as [_ Hst1].
      cbn [mbind M_bind] in Hsends.
      destruct (poll ws st1) as [t' r'] eqn:Hpoll.
      unfold trace_of in Hsends; cbn [fst] in Hsends.
      rewrite bot_sends_app in Hsends.
      assert (bot_sends t' = bot_sends (trace_of (poll ws st1))) as Ht'
        by (by rewrite Hpoll).
      destruct Hst1 as [-> | Hsent].
      * destruct Hb as [Hb | (m & d' & Hb & Hm)]; rewrite Hb in Hsends.
        -- apply (IH st before HV). by rewrite <- Ht'.
        -- destruct before as [|[m0 d0] before]; cbn in Hsends.
           ++ injection Hsends as -> _ _. by rewrite HV in Hm.
           ++ injection Hsends as <- <- Hsends.
              destruct (IH st before HV) as (V' & HV' & Hin);
                [by rewrite <- Ht'|].
              exists V'. split; [done|]. by right.
      * destruct Hb as [Hb | (m & d' & Hb & Hm)]; rewrite Hb in Hsent; [done|].
        injection Hsent as -> ->. rewrite Hb in Hsends.
        destruct before as [|[m0 d0] before]; cbn in Hsends.
        -- injection Hsends as HVeq _ _. by rewrite HV, HVeq in Hm.
        -- injection Hsends as <- <- Hsends.
           exists (last_status st1). split; [by rewrite <- HV|by left].
    + cbn in Hsends.
      destruct Hb as [Hb | (m & d' & Hb & Hm)]; rewrite Hb in Hsends.
      * by destruct before.
      * destruct before as [|[m0 d0] [|? before]]; try done.
        injection Hsends as -> _. by rewrite HV in Hm.
Qed.

(** ** The dedupe gate and the notifier's failures *)

(** C4: in a state that remembers the verdict [V], a cycle whose first work
    item resolves to [V] again calls the notifier not at all and leaves the
    state as it is; and whatever the later cycles bring, the notifier is
    called with [V] again only after a different text has been delivered. *)
Theorem dedupe_gate_idempotent (w : world) (st : loop_state) (V : string)
    (t : list event) :
  resolves_to w st V t → last_status st = V →
  iteration w st = (t ++ [Sleep RETRY_PERIOD], Return st)
  ∧ bot_sends (trace_of (iteration w st)) = []
  ∧ (∀ (ws : list world) (before after : list (string * bool)) (d : bool),
       bot_sends (trace_of (poll ws st)) = before ++ (V, d) :: after →
       ∃ V', V' ≠ V ∧ (V', true) ∈ before).
Proof.
  intros Hres HV.
  assert (iteration w st = (t ++ [Sleep RETRY_PERIOD], Return st)) as Hit.
  { pose proof (cycle_body_resolved w st V t Hres) as Hbody.
    rewrite <- HV, String.eqb_refl in Hbody.
    rewrite (iteration_success _ _ _ _ Hbody). by destruct st. }
  split; [done|]. split.
  - rewrite Hit. destruct (resolves_to_silent w st V t Hres) as (Hb & _ & _).
    by read_trace.
  - intros ws before after d. by apply poll_resend.
Qed.

(** C5: when the notifier fails on a verdict [V] that differs from the
    remembered one (the Telegram call raises a [TelegramError], which
    [send_message] turns into [SendMessageError]), the cycle ends with the
    state unchanged, so that a next cycle resolving to [V] calls the notifier
    with [V] again. In every cycle, a failed call of the notifier leaves the
    state as it was, and the remembered text changes only to a text that was
    delivered in that cycle. *)
Theorem failed_send_keeps_last_status (w : world) (st : loop_state) (V : string)
    (t : list event) (e : exn) :
  resolves_to w st V t → V ≠ last_status st →
  bot_send_message w TELEGRAM_CHAT_ID V = Some e →
  isinstance e TelegramError = true →
  iteration w st
  = (t ++ [BotSend TELEGRAM_CHAT_ID V false;
           Log RootLogger ERROR ("Сообщение не удалось отправить: " +:+ V
                                 +:+ ". Причина: " +:+ exn_str e);
           Log ModuleLogger ERROR
             ("Сбой в работе программы: "
              +:+ "Не удалось отправить сообщение: " +:+ exn_str e);
           Sleep RETRY_PERIOD],
     Return st)
  ∧ (∀ (w' : world) (t' : list event),
       resolves_to w' st V t' →
       ∃ d, bot_sends (trace_of (iteration w' st)) = [(V, d)])
  ∧ (∀ (w0 : world) (st0 st' : loop_state) (m : string),
       (m, false) ∈ bot_sends (trace_of (iteration w0 st0)) →
       outcome_of (iteration w0 st0) = Return st' → st' = st0)
  ∧ (∀ (w0 : world) (st0 st' : loop_state),
       outcome_of (iteration w0 st0) = Return st' →
       last_status st' ≠ last_status st0 →
       bot_sends (trace_of (iteration w0 st0)) = [(last_status st', true)]).
Proof.
  intros Hres HV Hbot He.
  split; [|split; [|split]].
  - pose proof (cycle_body_resolved w st V t Hres) as Hbody.
    rewrite (proj2 (String.eqb_neq _ _) HV) in Hbody.
    rewrite send_message_cases, Hbot, He in Hbody.
    unfold trace_of, outcome_of in Hbody. cbn [fst snd] in Hbody.
    rewrite (iteration_failure _ _ _ _ Hbody) by reflexivity.
    by rewrite <- app_assoc.
  - intros w' t' Hres'.
    pose proof (cycle_body_resolved w' st V t' Hres') as Hbody.
    rewrite (proj2 (String.eqb_neq _ _) HV) in Hbody.
    destruct (resolves_to_silent w' st V t' Hres') as (Hb & _ & _).
    destruct (send_message_sends w' V) as (d & Hsent & _).
    exists d.
    destruct (iteration_spec w' st) as (_ & _ & _ & _ & Hesc).
    destruct (outcome_of (send_message w' V)) as [[]|e'] eqn:Hout.
    + rewrite (iteration_success _ _ _ _ Hbody). by read_trace.
    + destruct (isinstance e' Exception) eqn:He'.
      * rewrite (iteration_failure _ _ _ _ Hbody He'). by read_trace.
      * rewrite (iteration_escape _ _ _ _ Hbody He'). by read_trace.
  - intros w0 st0 st' m. apply iteration_failed_send.
  - intros w0 st0 st'. apply iteration_update.
Qed.

(** ** Containment and cadence *)

(** C6: when the external calls of every cycle raise only instances of
    [Exception] (the class the handler of [main] names), every cycle's
    failure is caught at the cycle boundary, logged and not re-raised; the
    loop is still running after the last of the cycles; and each cycle,
    failed or not, ends with a sleep of 600 seconds. *)
Theorem poll_contains_failures (ws : list world) (st : loop_state) :
  Forall (raises_only Exception) ws →
  (∀ (w : world) (st0 : loop_state), w ∈ ws →
     match outcome_of (cycle_body w st0) with
     | Return new_status =>
         iteration w st0
         = (trace_of (cycle_body w st0) ++ [Sleep 600],
            Return {| timestamp := timestamp st0; last_status := new_status |})
     | Raise e =>
         iteration w st0
         = (trace_of (cycle_body w st0)
              ++ [Log ModuleLogger ERROR ("Сбой в работе программы: " +:+ exn_str e);
                  Sleep 600],
            Return st0)
     end)
  ∧ (∃ st', outcome_of (poll ws st) = Return st')
  ∧ sleeps (trace_of (poll ws st)) = replicate (length ws) 600.
Proof.
  intros Hws. split; [|split].
  - intros w st0 Hw.
    assert (raises_only Exception w) as Hraises
      by (by apply (proj1 (Forall_forall _ _) Hws)).
    pose proof (cycle_body_raises w st0) as Hexc.
    destruct (cycle_body w st0) as [t [new_status|e]] eqn:Hbody;
      unfold trace_of, outcome_of in *; cbn [fst snd] in *.
    + by apply iteration_success.
    + apply iteration_failure; [done|]. by apply Hexc.
  - by apply poll_continues.
  - destruct (poll_continues ws st Hws) as [st' Hst'].
    destruct (poll_spec ws st) as (_ & Hs & Hr).
    destruct (Hr _ Hst') as [_ <-]. exact Hs.
Qed.

(** ** The cursor *)

(** C8: the timestamp is taken once, when [main] starts, and every request
    of every cycle carries that value as [from_date], whatever
    [current_date] the responses hold: one request per cycle, all equal to
    the start time, hence non-decreasing, and the stored timestamp is still
    the start time after any number of cycles. *)
Theorem cursor_is_fixed (now : Z) (ws : list world) :
  from_dates (trace_of (main now ws))
  = replicate (length (sleeps (trace_of (main now ws)))) now
  ∧ (∀ (i j : nat) (a b : Z),
       (i ≤ j)%nat →
       from_dates (trace_of (main now ws)) !! i = Some a →
       from_dates (trace_of (main now ws)) !! j = Some b →
       a ≤ b)
  ∧ (∀ st', outcome_of (main now ws) = Return st' →
       timestamp st' = now ∧ length (from_dates (trace_of (main now ws))) = length ws).
Proof.
  assert (from_dates (trace_of (main now ws))
          = replicate (length (sleeps (trace_of (main now ws)))) now
          ∧ (∀ st', outcome_of (main now ws) = Return st' →
               timestamp st' = now
               ∧ length (sleeps (trace_of (main now ws))) = length ws))
    as [Hdates Hret].
  { unfold main.
    destruct (poll_spec ws {| timestamp := now; last_status := "" |})
      as (Hd & _ & Hr).
    destruct (truthy check_tokens); cbn [mbind M_bind logger_info emit].
    - unfold new_bot. destruct (telegram_Bot TELEGRAM_TOKEN) as [e|];
        cbn [mbind M_bind mret M_ret raise app].
      + split; [done|]. by intros ? [=].
      + destruct (poll ws _) as [t r].
        unfold trace_of, outcome_of in *; cbn [fst snd] in *.
        repeat progress
          rewrite ?from_dates_app, ?sleeps_app, ?from_dates_cons, ?sleeps_cons,
            ?from_dates_nil, ?sleeps_nil.
        cbn [app]. by split.
    - split; [done|]. by intros ? [=]. }
  split; [done|]. split.
  - intros i j a b Hij. rewrite Hdates.
    intros [-> _]%lookup_replicate [-> _]%lookup_replicate. done.
  - intros st' Hst'. destruct (Hret _ Hst') as [? Hlen].
    split; [done|]. by rewrite Hdates, length_replicate.
Qed.

(** ** The message for an empty list *)

(** With nothing remembered, a cycle that finds no work and delivers the
    message leaves nothing remembered. *)
Lemma iteration_no_work (now : Z) :
  iteration empty_world {| timestamp := now; last_status := "" |}
  = ([HttpGet ENDPOINT HEADERS now;
      Log ModuleLogger INFO NO_WORK;
      BotSend TELEGRAM_CHAT_ID NO_WORK true;
      Log RootLogger DEBUG ("Отправлено сообщение: " +:+ NO_WORK);
      Sleep RETRY_PERIOD],
     Return {| timestamp := now; last_status := "" |}).
Proof. by vm_compute. Qed.

(** So every one of [n] such cycles in a row sends the message. *)
Lemma poll_no_work (n : nat) (now : Z) :
  bot_sends (trace_of (poll (replicate n empty_world)
                         {| timestamp := now; last_status := "" |}))
  = replicate n (NO_WORK, true)
  ∧ outcome_of (poll (replicate n empty_world)
                  {| timestamp := now; last_status := "" |})
    = Return {| timestamp := now; last_status := "" |}.
Proof.
  induction n as [|n [IHt IHr]]; [done|].
  cbn [replicate]. rewrite poll_cons, iteration_no_work. cbn [mbind M_bind].
  destruct (poll (replicate n empty_world) _) as [t r].
  unfold trace_of, outcome_of in *; cbn [fst snd] in *.
  split; [|done].
  rewrite bot_sends_app, IHt. reflexivity.
Qed.

(** * Further properties of the code *)

(** ** The fetcher, beyond the request failures *)

(** X1: a response whose status code is not 200 is logged and raised as
    [EndpointStatusError] naming the endpoint, the parameters sent and the
    code; neither handler of the [try] touches it and the body is not
    decoded. *)
Theorem get_api_answer_bad_status (w : world) (ts : Z) (response : Response) :
  requests_get w ENDPOINT HEADERS ts = inr response →
  status_code response ≠ 200 →
  get_api_answer w ts
  = ([HttpGet ENDPOINT HEADERS ts;
      Log ModuleLogger ERROR
        ("Не удалось получить ответ от " +:+ ENDPOINT +:+ " "
         +:+ "с параметрами dict_values([" +:+ str_of_int ts +:+ "]). "
         +:+ "Код запроса - " +:+ str_of_int (status_code response) +:+ ".")],
     Raise (Exn EndpointStatusError
              (PStr ("Не удалось получить ответ от " +:+ ENDPOINT +:+ " "
                     +:+ "с параметрами dict_values([" +:+ str_of_int ts +:+ "]). "
                     +:+ "Код запроса - " +:+ str_of_int (status_code response)
                     +:+ ".")) None)).
Proof.
  intros Hget Hcode. rewrite get_api_answer_cases, Hget. cbv beta zeta.
  unfold HTTPStatus_OK. by rewrite (proj2 (Z.eqb_neq _ _) Hcode).
Qed.

(** X2: [get_api_answer] returns a value exactly when the call answered
    with status 200 and [response.json()] returned that value; it then has
    made the one request and logged nothing. *)
Theorem get_api_answer_returns (w : world) (ts : Z) (t : list event) (body : pyval) :
  get_api_answer w ts = (t, Return body)
  ↔ t = [HttpGet ENDPOINT HEADERS ts]
    ∧ ∃ response, requests_get w ENDPOINT HEADERS ts = inr response
                  ∧ status_code response = 200
                  ∧ json response = Return body.
Proof.
  rewrite get_api_answer_cases. cbv beta zeta. unfold HTTPStatus_OK. split.
  - destruct (requests_get w ENDPOINT HEADERS ts) as [e|response].
    + destruct (isinstance e RequestException);
        [|destruct (isinstance e ConnectionError)]; discriminate.
    + destruct (Z.eqb_spec (status_code response) 200) as [Hcode|Hcode];
        [|discriminate].
      destruct (json response) as [body'|e] eqn:Hjson.
      * intros [= <- <-]. split; [done|]. by exists response.
      * destruct (isinstance e RequestException);
          [|destruct (isinstance e ConnectionError)]; discriminate.
  - intros (-> & response & -> & Hcode & ->). by rewrite Hcode.
Qed.

(** X3: an exception of the HTTP call that is no [RequestException] goes
    past the first handler: an instance of the builtin [ConnectionError] is
    logged by the module logger and raised again as a [ConnectionError] with
    the connection text, anything else leaves the function as it is, without
    a log line. *)
Theorem get_api_answer_other_exception (w : world) (ts : Z) (e : exn) :
  requests_get w ENDPOINT HEADERS ts = inl e →
  isinstance e RequestException = false →
  get_api_answer w ts
  = if isinstance e ConnectionError then
      ([HttpGet ENDPOINT HEADERS ts;
        Log ModuleLogger ERROR
          ("Не удалось установить соединение с " +:+ ENDPOINT +:+ ": "
           +:+ exn_str e +:+ ". Проверьте интернет-соединение.")],
       Raise (Exn ConnectionError
                (PStr ("Не удалось установить соединение с " +:+ ENDPOINT +:+ ": "
                       +:+ exn_str e +:+ ". Проверьте интернет-соединение."))
                (Some e)))
    else ([HttpGet ENDPOINT HEADERS ts], Raise e).
Proof.
  intros Hget He. rewrite get_api_answer_cases, Hget. cbv beta zeta. rewrite He.
  destruct (isinstance e ConnectionError); reflexivity.
Qed.

(** X4: a failure of [response.json()] on a 200 response is inside the same
    [try]: when it is a [RequestException] it comes out as [EndPointError],
    like a failure of the call itself. *)
Theorem get_api_answer_json_failure (w : world) (ts : Z) (response : Response)
    (e : exn) :
  requests_get w ENDPOINT HEADERS ts = inr response →
  status_code response = 200 →
  json response = Raise e →
  isinstance e RequestException = true →
  get_api_answer w ts
  = ([HttpGet ENDPOINT HEADERS ts;
      Log RootLogger ERROR
        ("Ошибка выполнения запроса к " +:+ ENDPOINT +:+ ": " +:+ exn_str e)],
     Raise (Exn EndPointError
              (PStr ("Ошибка выполнения запроса к " +:+ ENDPOINT +:+ ": "
                     +:+ exn_str e)) (Some e))).
Proof.
  intros Hget Hcode Hjson He. rewrite get_api_answer_cases, Hget. cbv beta zeta.
  by rewrite Hcode, Hjson, He.
Qed.

(** ** The validator, beyond the order of its checks *)

Lemma all_dicts_fmap (dicts : list (gmap string pyval)) :
  all_dicts (PDict <$> dicts) = Some dicts.
Proof. induction dicts as [|d dicts IH]; [done|]. cbn. by rewrite IH. Qed.

(** X5: [check_response] returns exactly when the response is a dict whose
    [homeworks] is a list of dicts and whose [current_date] is an [int] (a
    [bool] is one); it then returns that list, element for element and in
    order, and has logged nothing. *)
Theorem check_response_accepts (response : pyval) (t : list event)
    (dicts : list (gmap string pyval)) :
  check_response response = (t, Return dicts)
  ↔ t = []
    ∧ ∃ d current_date,
        response = PDict d
        ∧ d !! "homeworks" = Some (PList (PDict <$> dicts))
        ∧ d !! "current_date" = Some current_date
        ∧ isinstance_int current_date = true.
Proof.
  split.
  - intros Hret. pose proof (check_response_unchanged _ _ _ Hret) as Hhw.
    destruct response as [| | | | | |d]; try discriminate. cbn in Hhw.
    unfold check_response in Hret.
    rewrite bool_decide_eq_true_2 in Hret by (apply elem_of_dom; eauto).
    cbn [negb] in Hret. unfold getitem in Hret. rewrite Hhw in Hret.
    destruct (d !! "current_date") as [cd|] eqn:Hcd; [|discriminate].
    cbn in Hret. rewrite all_dicts_fmap in Hret.
    destruct (isinstance_int cd) eqn:Hint; [|discriminate].
    cbn in Hret. injection Hret as <-. split; [done|]. by exists d, cd.
  - intros (-> & d & cd & -> & Hhw & Hcd & Hint). unfold check_response.
    rewrite bool_decide_eq_true_2 by (apply elem_of_dom; eauto).
    cbn [negb]. unfold getitem. rewrite Hhw, Hcd. cbn.
    by rewrite all_dicts_fmap, Hint.
Qed.

(** X6: keys other than [homeworks] and [current_date] play no part: adding
    or changing one leaves the outcome of [check_response] as it was (no
    error for an unexpected key). *)
Theorem check_response_ignores_other_keys (d : gmap string pyval) (key : string)
    (value : pyval) :
  key ≠ "homeworks" → key ≠ "current_date" →
  check_response (PDict (<[key := value]> d)) = check_response (PDict d).
Proof.
  intros Hhw Hcd. unfold check_response, getitem.
  rewrite !lookup_insert_ne by done.
  replace (bool_decide ("homeworks" ∈ dom (<[key := value]> d)))
    with (bool_decide ("homeworks" ∈ dom d)); [reflexivity|].
  apply bool_decide_ext. rewrite !elem_of_dom, lookup_insert_ne; done.
Qed.

(** X7: validation touches nothing outside: [check_response] makes no
    request, calls no bot and does not sleep, and what it raises is a
    [TypeError] or a [KeyError], as its docstring lists. *)
Theorem check_response_effects (response : pyval) :
  from_dates (trace_of (check_response response)) = []
  ∧ bot_sends (trace_of (check_response response)) = []
  ∧ sleeps (trace_of (check_response response)) = []
  ∧ (∀ e, outcome_of (check_response response) = Raise e →
          exn_cls e = TypeError ∨ exn_cls e = KeyError).
Proof.
  destruct (check_response_tame response) as [Hlogs _].
  apply only_logs_silent in Hlogs as (Hb & Hd & Hs).
  split; [done|]. split; [done|]. split; [done|].
  rewrite check_response_run_checks.
  unfold validator_checks, run_checks, check_is_mapping, check_has_homeworks,
    check_has_current_date, check_homeworks_is_sequence,
    check_elements_are_mappings, check_current_date_is_integer.
  intros e.
  repeat match goal with
         | |- context [if ?b then _ else _] => destruct b
         end; intros [= <-]; cbn; auto.
Qed.

(** ** The status resolver, beyond the verdict table *)

Lemma required_keys_subseteq (homework : gmap string pyval) :
  required_keys ⊆ dom homework
  ↔ is_Some (homework !! "homework_name") ∧ is_Some (homework !! "status").
Proof.
  unfold required_keys. rewrite <- !elem_of_dom. split.
  - intros Hsub. split; apply Hsub.
    + apply elem_of_union_l. by apply elem_of_singleton.
    + apply elem_of_union_r. by apply elem_of_singleton.
  - intros [Hn Hs] key. rewrite elem_of_union, !elem_of_singleton.
    by intros [-> | ->].
Qed.

Lemma missing_keys_spec (homework : gmap string pyval) (key : string) :
  key ∈ required_keys ∖ dom homework
  ↔ (key = "homework_name" ∨ key = "status") ∧ homework !! key = None.
Proof.
  unfold required_keys.
  rewrite elem_of_difference, elem_of_union, !elem_of_singleton, not_elem_of_dom.
  done.
Qed.

(** X8: a work item that lacks [homework_name] or [status] is rejected
    before its status is looked at: the error is logged and raised as a
    [KeyError] whose text holds the set of the required keys that are
    absent, a set that has exactly those keys and is never empty. *)
Theorem parse_status_missing_keys (homework : gmap string pyval) :
  ¬ (is_Some (homework !! "homework_name") ∧ is_Some (homework !! "status")) →
  parse_status homework
  = ([Log ModuleLogger ERROR
        ("Отсутствуют ключи " +:+ py_repr_set (required_keys ∖ dom homework)
         +:+ " в словаре 'homework'")],
     Raise (Exn KeyError
              (PStr ("Отсутствуют ключи "
                     +:+ py_repr_set (required_keys ∖ dom homework)
                     +:+ " в словаре 'homework'")) None))
  ∧ (∀ key, key ∈ required_keys ∖ dom homework
            ↔ (key = "homework_name" ∨ key = "status") ∧ homework !! key = None)
  ∧ required_keys ∖ dom homework ≠ ∅.
Proof.
  intros Hmissing. split; [|split].
  - unfold parse_status.
    rewrite bool_decide_eq_false_2 by (by rewrite required_keys_subseteq).
    reflexivity.
  - apply missing_keys_spec.
  - intros Hempty. apply Hmissing.
    assert (∀ key, key = "homework_name" ∨ key = "status" →
                   is_Some (homework !! key)) as Hall.
    { intros key Hkey. destruct (homework !! key) eqn:Hlook; [by eexists|].
      assert (key ∈ required_keys ∖ dom homework) as Hin
        by (by apply missing_keys_spec).
      rewrite Hempty in Hin. by apply not_elem_of_empty in Hin. }
    split; apply Hall; auto.
Qed.

(** X9: a status that is a list or a dict cannot be looked up in the verdict
    table: the membership test raises [TypeError] (unhashable type) before
    anything is logged, an error the docstring of [parse_status] does not
    list. *)
Theorem parse_status_unhashable_status (homework : gmap string pyval)
    (status : pyval) :
  is_Some (homework !! "homework_name") →
  homework !! "status" = Some status →
  ¬ hashable status →
  parse_status homework
  = ([], Raise (Exn TypeError
                  (PStr ("unhashable type: '" +:+ type_name status +:+ "'")) None)).
Proof.
  intros Hname Hstatus Hhash. unfold parse_status.
  rewrite required_keys_present by eauto. cbn [negb].
  unfold getitem. rewrite Hstatus.
  destruct status; cbn in Hhash; try (by exfalso; apply Hhash); reflexivity.
Qed.

(** X10: [parse_status] reads the two required keys and nothing else: work
    items that agree on [homework_name] and on [status] resolve alike,
    whatever else they hold. *)
Theorem parse_status_reads_two_keys (homework homework' : gmap string pyval) :
  homework !! "homework_name" = homework' !! "homework_name" →
  homework !! "status" = homework' !! "status" →
  parse_status homework = parse_status homework'.
Proof.
  intros Hname Hstatus. unfold parse_status, getitem.
  assert (required_keys ∖ dom homework = required_keys ∖ dom homework') as ->.
  { apply set_eq. intros key. rewrite !missing_keys_spec.
    split; intros [[-> | ->] Hnone]; (split; [auto|congruence]). }
  replace (bool_decide (required_keys ⊆ dom homework))
    with (bool_decide (required_keys ⊆ dom homework')).
  - by rewrite Hname, Hstatus.
  - apply bool_decide_ext. rewrite !required_keys_subseteq. by rewrite Hname, Hstatus.
Qed.

(** X11: whenever [parse_status] returns, the status is a string key of the
    verdict table, the text returned is the fixed prefix, the quoted name
    and that key's phrase, it has been logged once at INFO, and it is
    neither the empty string nor the text sent for an empty list. *)
Theorem parse_status_returns (homework : gmap string pyval) (t : list event)
    (V : string) :
  parse_status homework = (t, Return V) →
  ∃ name status phrase,
    homework !! "homework_name" = Some name
    ∧ homework !! "status" = Some (PStr status)
    ∧ HOMEWORK_VERDICTS !! status = Some phrase
    ∧ V = "Изменился статус проверки работы "
          +:+ dquote +:+ py_str name +:+ dquote +:+ ". " +:+ phrase
    ∧ t = [Log ModuleLogger INFO V]
    ∧ V ≠ "" ∧ V ≠ NO_WORK.
Proof.
  unfold parse_status.
  destruct (bool_decide (required_keys ⊆ dom homework)) eqn:Hkeys; cbn [negb];
    [|discriminate].
  apply bool_decide_eq_true_1, required_keys_subseteq in Hkeys
    as [[name Hname] [status Hstatus]].
  unfold getitem. rewrite Hstatus, Hname.
  destruct status as [| | | |s| |]; try discriminate.
  cbn. destruct (bool_decide (s ∈ dom HOMEWORK_VERDICTS)) eqn:Hin; cbn;
    [|discriminate].
  apply bool_decide_eq_true_1, elem_of_dom in Hin as [phrase Hphrase].
  rewrite Hphrase. cbn. intros [= <- <-].
  exists name, s, phrase. repeat split; try done.
Qed.

(** Every verdict starts with the same words. *)
Lemma parse_status_prefix (homework : gmap string pyval) (t : list event)
    (V : string) :
  parse_status homework = (t, Return V) →
  ∃ tail, V = "Изменился статус проверки работы " +:+ tail.
Proof.
  unfold parse_status.
  destruct (bool_decide (required_keys ⊆ dom homework)); cbn [negb];
    [|discriminate].
  destruct (getitem homework "status") as [t1 [status|e]]; [|discriminate].
  cbn [mbind M_bind].
  destruct (contains HOMEWORK_VERDICTS status) as [t2 [[]|e]]; cbn;
    [|discriminate|discriminate].
  destruct (subscript HOMEWORK_VERDICTS status) as [t3 [phrase|e]]; cbn;
    [|discriminate].
  destruct (getitem homework "homework_name") as [t4 [name|e]]; cbn;
    [|discriminate].
  intros [= _ <-]. by eexists.
Qed.

(** ** The notifier, beyond the Telegram failures *)

(** X12: an exception of [bot.send_message] that is no [TelegramError]
    is not handled: it leaves [send_message] as it is, and nothing is
    logged. *)
Theorem send_message_unrelated_exception (bot : world) (message : string)
    (e : exn) :
  bot_send_message bot TELEGRAM_CHAT_ID message = Some e →
  isinstance e TelegramError = false →
  send_message bot message = ([BotSend TELEGRAM_CHAT_ID message false], Raise e).
Proof. intros Hbot He. by rewrite send_message_cases, Hbot, He. Qed.

(** X13: every call of [send_message] calls the bot once, first, with the
    configured chat id and the text it was given, follows it with at most one
    log record, touches neither the endpoint nor the clock, and returns
    exactly when the bot call returned. *)
Theorem send_message_calls_once (bot : world) (message : string) :
  ∃ delivered logs,
    trace_of (send_message bot message)
    = BotSend TELEGRAM_CHAT_ID message delivered :: logs
    ∧ only_logs logs ∧ (length logs ≤ 1)%nat
    ∧ (delivered = true ↔ bot_send_message bot TELEGRAM_CHAT_ID message = None)
    ∧ (delivered = true ↔ outcome_of (send_message bot message) = Return tt).
Proof.
  rewrite send_message_cases.
  destruct (bot_send_message bot TELEGRAM_CHAT_ID message) as [e|].
  - destruct (isinstance e TelegramError); eexists false, _;
      (split; [reflexivity|]); (split; [by repeat constructor|]);
      (split; [cbn; lia|]); by split.
  - eexists true, _. split; [reflexivity|]. split; [by repeat constructor|].
    split; [cbn; lia|]. by split.
Qed.

(** ** Start-up *)

(** X14: when one of the three credentials is missing, [main] logs the
    fact at INFO and at CRITICAL and exits with status 1: no request is made,
    no message sent, no cycle run, whatever the outside would have
    answered. *)
Theorem main_missing_credentials (now : Z) (ws : list world) :
  ¬ (is_Some PRACTICUM_TOKEN ∧ is_Some TELEGRAM_TOKEN ∧ is_Some TELEGRAM_CHAT_ID) →
  main now ws
  = ([Log ModuleLogger INFO "Отсутствуют обязательные переменные окружения.";
      Log RootLogger CRITICAL "Отсутствуют обязательные переменные окружения."],
     Raise (Exn SystemExit (PInt 1) None)).
Proof.
  intros Hmissing. unfold main, check_tokens.
  destruct PRACTICUM_TOKEN, TELEGRAM_TOKEN, TELEGRAM_CHAT_ID;
    try reflexivity.
  exfalso. apply Hmissing. repeat split; by eexists.
Qed.

(** X22: when the three credentials are set and the constructor
    [telegram.Bot] of line 245 raises (a malformed token), the exception
    leaves [main] before the loop: one INFO line has been logged, no request
    is made, no message sent, and the program does not sleep. *)
Theorem main_bot_refused (now : Z) (ws : list world) (e : exn) :
  is_Some PRACTICUM_TOKEN ∧ is_Some TELEGRAM_TOKEN ∧ is_Some TELEGRAM_CHAT_ID →
  telegram_Bot TELEGRAM_TOKEN = Some e →
  main now ws = ([Log ModuleLogger INFO "Переменные окружения заполнены."], Raise e).
Proof.
  intros ([p Hp] & [t Ht] & [c Hc]) Hbot. unfold main, new_bot, check_tokens.
  rewrite Hbot, Hp, Ht, Hc. reflexivity.
Qed.

(** ** Single cycles *)

(** X15: a cycle that resolves to a verdict other than the remembered text
    and whose Telegram call returns delivers the verdict, logs the delivery
    and remembers the verdict; the timestamp stays. *)
Theorem iteration_new_verdict (w : world) (st : loop_state) (V : string)
    (t : list event) :
  resolves_to w st V t → V ≠ last_status st →
  bot_send_message w TELEGRAM_CHAT_ID V = None →
  iteration w st
  = (t ++ [BotSend TELEGRAM_CHAT_ID V true;
           Log RootLogger DEBUG ("Отправлено сообщение: " +:+ V);
           Sleep RETRY_PERIOD],
     Return {| timestamp := timestamp st; last_status := V |}).
Proof.
  intros Hres HV Hbot.
  pose proof (cycle_body_resolved w st V t Hres) as Hbody.
  rewrite (proj2 (String.eqb_neq _ _) HV) in Hbody.
  rewrite send_message_cases, Hbot in Hbody.
  unfold trace_of, outcome_of in Hbody. cbn [fst snd] in Hbody.
  rewrite (iteration_success _ _ _ _ Hbody). by rewrite <- app_assoc.
Qed.

(** X16: after a fresh start (nothing remembered) the first verdict a cycle
    resolves to is always handed to the notifier, since no verdict is the
    empty string. *)
Theorem first_verdict_is_sent (w : world) (st : loop_state) (V : string)
    (t : list event) :
  resolves_to w st V t → last_status st = "" →
  ∃ delivered,
    bot_sends (trace_of (iteration w st)) = [(V, delivered)]
    ∧ (delivered = true →
       outcome_of (iteration w st)
       = Return {| timestamp := timestamp st; last_status := V |}).
Proof.
  intros Hres Hfresh.
  assert (V ≠ last_status st) as HV.
  { destruct Hres as (t1 & response & t2 & first & rest & t3 & _ & _ & H3 & _).
    apply parse_status_prefix in H3 as [tail ->]. by rewrite Hfresh. }
  pose proof (cycle_body_resolved w st V t Hres) as Hbody.
  rewrite (proj2 (String.eqb_neq _ _) HV) in Hbody.
  destruct (resolves_to_silent w st V t Hres) as (Hb & _ & _).
  destruct (send_message_sends w V) as (d & Hsent & _ & _ & Hok).
  exists d.
  destruct (outcome_of (send_message w V)) as [[]|e'] eqn:Hout.
  - rewrite (iteration_success _ _ _ _ Hbody). split; [by read_trace|done].
  - assert (d = false) as ->
      by (destruct d; [discriminate (proj1 Hok eq_refl)|done]).
    destruct (isinstance e' Exception) eqn:He'.
    + rewrite (iteration_failure _ _ _ _ Hbody He'). split; [by read_trace|done].
    + rewrite (iteration_escape _ _ _ _ Hbody He'). split; [by read_trace|done].
Qed.

(** X17: a cycle whose response has a status code other than 200 is
    abandoned: the failure is logged by the fetcher and again at the cycle
    boundary, the bot is not called, the state is kept, and the loop sleeps
    and goes on. *)
Theorem iteration_bad_status (w : world) (st : loop_state) (response : Response) :
  requests_get w ENDPOINT HEADERS (timestamp st) = inr response →
  status_code response ≠ 200 →
  iteration w st
  = ([HttpGet ENDPOINT HEADERS (timestamp st);
      Log ModuleLogger ERROR
        ("Не удалось получить ответ от " +:+ ENDPOINT +:+ " "
         +:+ "с параметрами dict_values([" +:+ str_of_int (timestamp st) +:+ "]). "
         +:+ "Код запроса - " +:+ str_of_int (status_code response) +:+ ".");
      Log ModuleLogger ERROR
        ("Сбой в работе программы: "
         +:+ "Не удалось получить ответ от " +:+ ENDPOINT +:+ " "
         +:+ "с параметрами dict_values([" +:+ str_of_int (timestamp st) +:+ "]). "
         +:+ "Код запроса - " +:+ str_of_int (status_code response) +:+ ".");
      Sleep RETRY_PERIOD],
     Return st).
Proof.
  intros Hget Hcode.
  assert (cycle_body w st
          = ([HttpGet ENDPOINT HEADERS (timestamp st);
              Log ModuleLogger ERROR
                ("Не удалось получить ответ от " +:+ ENDPOINT +:+ " "
                 +:+ "с параметрами dict_values(["
                 +:+ str_of_int (timestamp st) +:+ "]). "
                 +:+ "Код запроса - " +:+ str_of_int (status_code response)
                 +:+ ".")],
             Raise (Exn EndpointStatusError
                      (PStr ("Не удалось получить ответ от " +:+ ENDPOINT +:+ " "
                             +:+ "с параметрами dict_values(["
                             +:+ str_of_int (timestamp st) +:+ "]). "
                             +:+ "Код запроса - "
                             +:+ str_of_int (status_code response) +:+ "."))
                      None))) as Hbody.
  { unfold cycle_body. rewrite get_api_answer_cases, Hget. cbv beta zeta.
    unfold HTTPStatus_OK. by rewrite (proj2 (Z.eqb_neq _ _) Hcode). }
  by rewrite (iteration_failure _ _ _ _ Hbody eq_refl).
Qed.

(** X18: whatever the outside does, one turn of the loop starts with the
    one request to the endpoint, calls the bot at most once, and ends with
    its only sleep, of [RETRY_PERIOD] seconds. *)
Theorem iteration_shape (w : world) (st : loop_state) :
  ∃ middle,
    trace_of (iteration w st)
    = HttpGet ENDPOINT HEADERS (timestamp st) :: middle ++ [Sleep RETRY_PERIOD]
    ∧ from_dates middle = [] ∧ sleeps middle = []
    ∧ (length (bot_sends middle) ≤ 1)%nat.
Proof.
  assert (∃ body, trace_of (cycle_body w st)
                  = HttpGet ENDPOINT HEADERS (timestamp st) :: body) as [body Hbody].
  { unfold cycle_body.
    destruct (get_api_answer_trace w (timestamp st)) as (logs & Ht1 & _).
    destruct (get_api_answer w (timestamp st)) as [t1 [response|e1]];
      cbn in Ht1; subst t1; [|by eexists].
    cbn [mbind M_bind]. destruct (_ ≫= _) as [t' r']. by eexists. }
  destruct (cycle_body_spec w st) as (Hd & Hs & Hb & _).
  rewrite Hbody in Hd, Hs, Hb.
  rewrite from_dates_cons in Hd. rewrite sleeps_cons in Hs.
  rewrite bot_sends_cons in Hb. cbn [app] in Hd, Hs, Hb.
  injection Hd as Hd.
  assert (length (bot_sends body) ≤ 1)%nat as Hlen.
  { destruct Hb as [-> | (m & d & -> & _)]; cbn; lia. }
  destruct (cycle_body w st) as [t [new_status|e]] eqn:Hc;
    unfold trace_of in Hbody; cbn [fst] in Hbody; subst t.
  - rewrite (iteration_success _ _ _ _ Hc). by exists body.
  - destruct (isinstance e Exception) eqn:He.
    + rewrite (iteration_failure _ _ _ _ Hc He).
      exists (body ++ [Log ModuleLogger ERROR
                         ("Сбой в работе программы: " +:+ exn_str e)]).
      split; [by rewrite <- app_assoc|].
      rewrite from_dates_app, sleeps_app, bot_sends_app, Hd, Hs.
      cbn. rewrite app_nil_r. done.
    + rewrite (iteration_escape _ _ _ _ Hc He). by exists body.
Qed.

(** ** The loop as a whole *)

Lemma not_Exception_not_handled (e : exn) :
  isinstance e Exception = false →
  isinstance e RequestException = false ∧ isinstance e ConnectionError = false
  ∧ isinstance e TelegramError = false.
Proof. destruct e as [[] arg context]; by vm_compute. Qed.

(** X19: an exception of the HTTP call that is no instance of [Exception]
    (a [KeyboardInterrupt], say) is handled nowhere: the cycle still sleeps,
    in the [finally] clause, and then the exception leaves the loop; nothing
    is logged and no later cycle runs. *)
Theorem poll_stops_on_interrupt (w : world) (ws : list world) (st : loop_state)
    (e : exn) :
  requests_get w ENDPOINT HEADERS (timestamp st) = inl e →
  isinstance e Exception = false →
  poll (w :: ws) st
  = ([HttpGet ENDPOINT HEADERS (timestamp st); Sleep RETRY_PERIOD], Raise e).
Proof.
  intros Hget He.
  destruct (not_Exception_not_handled e He) as (Hreq & Hconn & _).
  assert (cycle_body w st = ([HttpGet ENDPOINT HEADERS (timestamp st)], Raise e))
    as Hbody.
  { unfold cycle_body. rewrite get_api_answer_cases, Hget. cbv beta zeta.
    by rewrite Hreq, Hconn. }
  rewrite poll_cons, (iteration_escape _ _ _ _ Hbody He). reflexivity.
Qed.

Lemma iteration_bot_sends (w : world) (st : loop_state) :
  bot_sends (trace_of (iteration w st)) = bot_sends (trace_of (cycle_body w st)).
Proof.
  destruct (cycle_body w st) as [t [new_status|e]] eqn:Hc.
  - rewrite (iteration_success _ _ _ _ Hc). by read_trace.
  - destruct (isinstance e Exception) eqn:He.
    + rewrite (iteration_failure _ _ _ _ Hc He). by read_trace.
    + rewrite (iteration_escape _ _ _ _ Hc He). by read_trace.
Qed.

(** What a cycle hands to the notifier, if anything: the text for an empty
    list, and only with nothing remembered, or a verdict. *)
Lemma cycle_body_sends (w : world) (st : loop_state) :
  bot_sends (trace_of (cycle_body w st)) = []
  ∨ (last_status st = ""
     ∧ ∃ d, bot_sends (trace_of (cycle_body w st)) = [(NO_WORK, d)])
  ∨ (∃ tail d, bot_sends (trace_of (cycle_body w st))
               = [("Изменился статус проверки работы " +:+ tail, d)]).
Proof.
  unfold cycle_body.
  destruct (get_api_answer_trace w (timestamp st)) as (logs & Ht1 & Hlogs).
  apply only_logs_silent in Hlogs as (Hb1 & _ & _).
  destruct (get_api_answer w (timestamp st)) as [t1 [response|e1]];
    cbn in Ht1; subst t1; cbn; [|left; by read_trace].
  destruct (check_response_tame response) as [Hl2 _].
  apply only_logs_silent in Hl2 as (Hb2 & _ & _).
  destruct (check_response response) as [t2 [[|first rest]|e2]]; cbn in *;
    [| |left; by read_trace].
  - destruct (String.eqb_spec (last_status st) "") as [Hls|Hls]; cbn;
      [|left; by read_trace].
    pose proof (send_message_sends w NO_WORK) as (d & Hb & _).
    right. left. split; [done|]. exists d.
    destruct (send_message w NO_WORK) as [ts [[]|e]]; cbn in *; by read_trace.
  - destruct (parse_status_tame first) as [Hl3 _].
    apply only_logs_silent in Hl3 as (Hb3 & _ & _).
    pose proof (parse_status_prefix first) as Hprefix.
    destruct (parse_status first) as [t3 [V|e3]]; cbn in *;
      [|left; by read_trace].
    destruct (Hprefix _ _ eq_refl) as [tail ->].
    destruct (String.eqb _ (last_status st)); cbn; [left; by read_trace|].
    pose proof (send_message_sends w ("Изменился статус проверки работы " +:+ tail))
      as (d & Hb & _).
    right. right. exists tail, d.
    destruct (send_message w _) as [ts [[]|e]]; cbn in *; by read_trace.
Qed.

(** X20: over any number of cycles the remembered text is either still the
    one the loop started with or a text the bot has delivered in one of
    them: the loop never records a delivery that did not happen. *)
Theorem poll_remembers_only_delivered (ws : list world) (st st' : loop_state) :
  outcome_of (poll ws st) = Return st' →
  last_status st' = last_status st
  ∨ (last_status st', true) ∈ bot_sends (trace_of (poll ws st)).
Proof.
  revert st. induction ws as [|w ws IH]; intros st.
  - intros [= <-]. by left.
  - rewrite poll_cons.
    destruct (iteration_spec w st) as (_ & _ & _ & Hr & _).
    destruct (iteration w st) as [t [st1|e]];
      unfold trace_of, outcome_of in Hr; cbn [fst snd] in Hr; [|discriminate].
    destruct (Hr _ eq_refl) as [_ Hst1]. specialize (IH st1).
    cbn [mbind M_bind]. destruct (poll ws st1) as [t' r'].
    unfold trace_of, outcome_of in *; cbn [fst snd] in *.
    intros Hret. rewrite bot_sends_app.
    destruct (IH Hret) as [Hsame | Hin].
    + destruct Hst1 as [-> | Hsent]; [by left|].
      right. rewrite Hsent, Hsame. apply elem_of_app. left. by left.
    + right. apply elem_of_app. by right.
Qed.

(** X21: once a text is remembered (a verdict was delivered), the message
    for an empty list is never handed to the notifier again, over any number
    of cycles and whatever they observe, and the remembered text never goes
    back to the empty string. *)
Theorem no_work_only_before_first_verdict (ws : list world) (st : loop_state) :
  last_status st ≠ "" →
  (∀ d, (NO_WORK, d) ∉ bot_sends (trace_of (poll ws st)))
  ∧ (∀ st', outcome_of (poll ws st) = Return st' → last_status st' ≠ "").
Proof.
  revert st. induction ws as [|w ws IH]; intros st Hst.
  - split; [intros d Hin; by apply not_elem_of_nil in Hin|].
    by intros st' [= <-].
  - rewrite poll_cons.
    assert (∀ d, ((NO_WORK, d) ∉ bot_sends (trace_of (iteration w st)))
                 ∧ bot_sends (trace_of (iteration w st)) ≠ [("", d)])
      as Hsends.
    { intros d. rewrite iteration_bot_sends.
      destruct (cycle_body_sends w st)
        as [-> | [[Hfresh _] | (tail & d' & ->)]]; [|done|].
      - split; [apply not_elem_of_nil|done].
      - split; [|done]. intros Hin. apply list_elem_of_singleton in Hin.
        discriminate Hin. }
    destruct (iteration_spec w st) as (_ & _ & _ & Hr & _).
    destruct (iteration w st) as [t [st1|e]];
      unfold trace_of, outcome_of in Hr, Hsends; cbn [fst snd] in Hr, Hsends.
    + assert (last_status st1 ≠ "") as Hst1.
      { destruct (Hr _ eq_refl) as [_ [-> | Hsent]]; [done|].
        intros Hempty. rewrite Hempty in Hsent.
        by apply (proj2 (Hsends true)). }
      destruct (IH st1 Hst1) as [IHsends IHret].
      cbn [mbind M_bind]. destruct (poll ws st1) as [t' r'].
      unfold trace_of, outcome_of in *; cbn [fst snd] in *.
      split; [|done].
      intros d. rewrite bot_sends_app, elem_of_app.
      intros [Hin | Hin]; [by apply (proj1 (Hsends d))|by apply (IHsends d)].
    + cbn. split; [|by intros st' [=]]. intros d. apply (proj1 (Hsends d)).
Qed.

End Homework.

(** * The claims at concrete inputs *)

(** C1 (the code departs from the claim): with nothing remembered, the loop
    sends the text [Работ на проверке нет.] in every one of [n] consecutive
    cycles that observe an empty [homeworks] list and deliver it, in the
    second as in the first, because the branch of lines 258-260 records
    nothing in [last_status]. So does [main], started with the three
    credentials set, whenever the constructor of line 245 accepts the
    token (when it raises, no cycle runs). *)
Theorem no_work_message_repeats (py_repr : pyval → string)
    (py_repr_set : gset string → string) (practicum telegram chat : string)
    (telegram_Bot : option string → option exn) (n : nat) (now : Z) :
  bot_sends (trace_of (poll py_repr py_repr_set (Some practicum) (Some chat)
                         (replicate n empty_world)
                         {| timestamp := now; last_status := "" |}))
  = replicate n (NO_WORK, true)
  ∧ bot_sends (trace_of (main py_repr py_repr_set
                           (Some practicum) (Some telegram) (Some chat)
                           telegram_Bot now (replicate n empty_world)))
    = match telegram_Bot (Some telegram) with
      | None => replicate n (NO_WORK, true)
      | Some _ => []
      end
  ∧ bot_sends (trace_of (main py_repr py_repr_set
                           (Some practicum) (Some telegram) (Some chat)
                           accepting_Bot now [empty_world; empty_world]))
    = [(NO_WORK, true); (NO_WORK, true)].
Proof.
  assert (∀ Bot k,
            bot_sends (trace_of (main py_repr py_repr_set
                                   (Some practicum) (Some telegram) (Some chat)
                                   Bot now (replicate k empty_world)))
            = match Bot (Some telegram) with
              | None => replicate k (NO_WORK, true)
              | Some _ => []
              end) as Hmain.
  { intros Bot k. unfold main, new_bot.
    cbn [check_tokens forallb truthy andb mbind M_bind logger_info emit].
    destruct (Bot (Some telegram)) as [e|]; [reflexivity|].
    cbn [mbind M_bind mret M_ret app].
    destruct (poll_no_work py_repr py_repr_set (Some practicum) (Some chat) k now)
      as [Hsends _].
    destruct (poll _ _ _ _ _ _) as [t r].
    unfold trace_of in *. cbn [fst] in *.
    by rewrite ?bot_sends_app, ?bot_sends_cons, ?bot_sends_nil, Hsends. }
  split; [apply poll_no_work|].
  split; [apply Hmain | apply (Hmain accepting_Bot 2%nat)].
Qed.

(** The sample cycle does resolve to the verdict of [task1_approved]. *)
Lemma task1_resolves (bot : option exn) (remembered : string) :
  resolves_to sample_repr sample_repr_set sample_token (task1_world bot)
    {| timestamp := 1700000000; last_status := remembered |}
    task1_message task1_trace.
Proof.
  exists [HttpGet ENDPOINT (HEADERS sample_token) 1700000000],
    (api_response [PDict task1_approved] 1700000000), [],
    task1_approved, [], [Log ModuleLogger INFO task1_message].
  repeat split; by vm_compute.
Qed.

(** C3 at a [NetworkError] of the Telegram call. *)
Lemma send_message_failure_witness :
  bot_send_message (task1_world (Some network_down)) sample_chat task1_message
  = Some network_down
  ∧ isinstance network_down TelegramError = true
  ∧ send_message sample_repr sample_chat (task1_world (Some network_down))
      task1_message
    = ([BotSend sample_chat task1_message false;
        Log RootLogger ERROR
          ("Сообщение не удалось отправить: " +:+ task1_message
           +:+ ". Причина: Bad Gateway")],
       Raise (Exn SendMessageError
                (PStr "Не удалось отправить сообщение: Bad Gateway")
                (Some network_down))).
Proof.
  split; [reflexivity|]. split; [reflexivity|].
  exact (send_message_failure sample_repr sample_chat
           (task1_world (Some network_down)) task1_message network_down
           eq_refl eq_refl).
Defined.

(** C10 at a connection failure of [requests]. *)
Lemma get_api_answer_request_exception_witness :
  isinstance connection_refused RequestException = true
  ∧ get_api_answer sample_repr sample_token
      (world_http_raises connection_refused) 1700000000
    = ([HttpGet ENDPOINT (HEADERS sample_token) 1700000000;
        Log RootLogger ERROR
          ("Ошибка выполнения запроса к " +:+ ENDPOINT +:+ ": Connection refused")],
       Raise (Exn EndPointError
                (PStr ("Ошибка выполнения запроса к " +:+ ENDPOINT
                       +:+ ": Connection refused"))
                (Some connection_refused))).
Proof.
  split; [reflexivity|].
  exact (proj1 (get_api_answer_request_exception sample_repr sample_token
                  (world_http_raises connection_refused) 1700000000
                  connection_refused eq_refl eq_refl)).
Defined.

(** C7 at a rejected work and at a status the table does not hold. *)
Lemma parse_status_verdict_witness :
  parse_status sample_repr sample_repr_set (work_item "lab2" "rejected")
  = ([Log ModuleLogger INFO
        ("Изменился статус проверки работы " +:+ dquote +:+ "lab2" +:+ dquote
         +:+ ". Работа проверена: у ревьюера есть замечания.")],
     Return ("Изменился статус проверки работы " +:+ dquote +:+ "lab2" +:+ dquote
             +:+ ". Работа проверена: у ревьюера есть замечания."))
  ∧ parse_status sample_repr sample_repr_set (work_item "lab2" "lost")
    = ([Log ModuleLogger ERROR "Неизвестный статус - lost"],
       Raise (Exn KeyError (PStr "Неизвестный статус - lost") None)).
Proof.
  pose proof (parse_status_verdict sample_repr sample_repr_set)
    as (_ & _ & _ & Hknown & Hunknown & _).
  split.
  - exact (Hknown (work_item "lab2" "rejected") "lab2" "rejected" _
             eq_refl eq_refl eq_refl).
  - refine (Hunknown (work_item "lab2" "lost") (PStr "lost") _ eq_refl I _).
    + by eexists.
    + intros (s & [= <-] & Hin). revert Hin. by vm_compute.
Defined.

(** C9 with all three credentials, and with one missing. *)
Lemma check_tokens_result_witness :
  check_tokens (Some "a") (Some "b") (Some "c") = PBool true
  ∧ check_tokens (Some "a") None (Some "c") = PNone.
Proof.
  split.
  - apply (proj1 (check_tokens_result (Some "a") (Some "b") (Some "c"))).
    repeat split; by eexists.
  - apply (proj1 (proj2 (check_tokens_result (Some "a") None (Some "c")))).
    intros (_ & [? [=]] & _).
Defined.

(** C4 at a state that remembers the verdict of [task1_approved]. *)
Lemma dedupe_gate_idempotent_witness :
  last_status remembers_task1 = task1_message
  ∧ iteration sample_repr sample_repr_set sample_token sample_chat
      (task1_world None) remembers_task1
    = (task1_trace ++ [Sleep 600], Return remembers_task1)
  ∧ bot_sends (trace_of (iteration sample_repr sample_repr_set sample_token
                           sample_chat (task1_world None) remembers_task1))
    = [].
Proof.
  split; [reflexivity|].
  pose proof (dedupe_gate_idempotent sample_repr sample_repr_set sample_token
                sample_chat (task1_world None) remembers_task1 task1_message
                task1_trace (task1_resolves None task1_message) eq_refl)
    as (Hiter & Hsends & _).
  by split.
Defined.

(** C5 at a first cycle whose Telegram call fails. *)
Lemma failed_send_keeps_last_status_witness :
  task1_message ≠ last_status remembers_nothing
  ∧ isinstance network_down TelegramError = true
  ∧ outcome_of (iteration sample_repr sample_repr_set sample_token sample_chat
                  (task1_world (Some network_down)) remembers_nothing)
    = Return remembers_nothing
  ∧ (∃ d, bot_sends (trace_of (iteration sample_repr sample_repr_set sample_token
                                 sample_chat (task1_world None) remembers_nothing))
          = [(task1_message, d)]).
Proof.
  assert (task1_message ≠ last_status remembers_nothing) as Hne by done.
  split; [exact Hne|]. split; [reflexivity|].
  pose proof (failed_send_keeps_last_status sample_repr sample_repr_set
                sample_token sample_chat (task1_world (Some network_down))
                remembers_nothing task1_message task1_trace network_down
                (task1_resolves (Some network_down) "") Hne eq_refl eq_refl)
    as (Hiter & Hretry & _).
  split.
  - by rewrite Hiter.
  - exact (Hretry (task1_world None) task1_trace (task1_resolves None "")).
Defined.

Lemma world_of_raises_only (body : pyval) (e : exn) :
  isinstance e Exception = true →
  raises_only Exception (world_of body (Some e)).
Proof.
  intros He. split; [|split].
  - intros ???? [=].
  - intros ????? [= <-] [=].
  - by intros ??? [= <-].
Qed.

Lemma world_http_raises_only (e : exn) :
  isinstance e Exception = true → raises_only Exception (world_http_raises e).
Proof.
  intros He. split; [|split].
  - by intros ???? [= <-].
  - intros ????? [=].
  - intros ??? [=].
Qed.

(** C6 at a cycle whose request fails followed by one whose Telegram call
    fails. *)
Lemma poll_contains_failures_witness :
  Forall (raises_only Exception)
    [world_http_raises connection_refused; task1_world (Some network_down)]
  ∧ (∃ st', outcome_of (poll sample_repr sample_repr_set sample_token sample_chat
                          [world_http_raises connection_refused;
                           task1_world (Some network_down)] remembers_nothing)
            = Return st')
  ∧ sleeps (trace_of (poll sample_repr sample_repr_set sample_token sample_chat
                        [world_http_raises connection_refused;
                         task1_world (Some network_down)] remembers_nothing))
    = [600; 600].
Proof.
  assert (Forall (raises_only Exception)
            [world_http_raises connection_refused;
             task1_world (Some network_down)]) as Hws.
  { constructor; [by apply world_http_raises_only|].
    constructor; [by apply world_of_raises_only|].
    constructor. }
  split; [exact Hws|].
  exact (proj2 (poll_contains_failures sample_repr sample_repr_set sample_token
                  sample_chat _ remembers_nothing Hws)).
Defined.

(** C8 at two cycles whose responses report later and later server times:
    both requests carry the start time. *)
Example cursor_is_fixed_example :
  from_dates (trace_of (main sample_repr sample_repr_set sample_token
                          (Some "telegram-token") sample_chat accepting_Bot
                          1699999000
                          [world_of (api_response [] 1700000000) None;
                           world_of (api_response [] 1700000600) None]))
  = [1699999000; 1699999000].
Proof. by vm_compute. Qed.

(** * The further properties at concrete inputs *)

(** X1 at a response with status 500. *)
Lemma get_api_answer_bad_status_witness :
  (500 : Z) ≠ 200
  ∧ get_api_answer sample_repr sample_token (world_status 500) 1700000000
    = ([HttpGet ENDPOINT "OAuth practicum-token" 1700000000;
        Log ModuleLogger ERROR
          ("Не удалось получить ответ от " +:+ ENDPOINT
           +:+ " с параметрами dict_values([1700000000]). Код запроса - 500.")],
       Raise (Exn EndpointStatusError
                (PStr ("Не удалось получить ответ от " +:+ ENDPOINT
                       +:+ " с параметрами dict_values([1700000000]). "
                       +:+ "Код запроса - 500.")) None)).
Proof.
  assert ((500 : Z) ≠ 200) as Hcode by done.
  split; [exact Hcode|].
  exact (get_api_answer_bad_status sample_repr sample_token (world_status 500)
           1700000000 _ eq_refl Hcode).
Defined.

(** X3 at a builtin [ConnectionError], and at a [KeyboardInterrupt]. *)
Lemma get_api_answer_other_exception_witness :
  isinstance socket_reset RequestException = false
  ∧ get_api_answer sample_repr sample_token (world_http_raises socket_reset)
      1700000000
    = ([HttpGet ENDPOINT "OAuth practicum-token" 1700000000;
        Log ModuleLogger ERROR
          ("Не удалось установить соединение с " +:+ ENDPOINT
           +:+ ": Connection reset by peer. Проверьте интернет-соединение.")],
       Raise (Exn ConnectionError
                (PStr ("Не удалось установить соединение с " +:+ ENDPOINT
                       +:+ ": Connection reset by peer. "
                       +:+ "Проверьте интернет-соединение."))
                (Some socket_reset)))
  ∧ get_api_answer sample_repr sample_token (world_http_raises interrupted)
      1700000000
    = ([HttpGet ENDPOINT "OAuth practicum-token" 1700000000], Raise interrupted).
Proof.
  split; [reflexivity|]. split.
  - exact (get_api_answer_other_exception sample_repr sample_token
             (world_http_raises socket_reset) 1700000000 socket_reset
             eq_refl eq_refl).
  - exact (get_api_answer_other_exception sample_repr sample_token
             (world_http_raises interrupted) 1700000000 interrupted
             eq_refl eq_refl).
Defined.

(** X4 at a body that is no JSON. *)
Lemma get_api_answer_json_failure_witness :
  isinstance body_not_json RequestException = true
  ∧ outcome_of (get_api_answer sample_repr sample_token
                  (world_json_raises body_not_json) 1700000000)
    = Raise (Exn EndPointError
               (PStr ("Ошибка выполнения запроса к " +:+ ENDPOINT
                      +:+ ": Expecting value: line 1 column 1 (char 0)"))
               (Some body_not_json)).
Proof.
  split; [reflexivity|].
  by rewrite (get_api_answer_json_failure sample_repr sample_token
                (world_json_raises body_not_json) 1700000000 _ body_not_json
                eq_refl eq_refl eq_refl eq_refl).
Defined.

(** X6 at a response with an unexpected key. *)
Lemma check_response_ignores_other_keys_witness :
  check_response
    (PDict (<["unexpected" := PStr "value"]>
              (<["homeworks" := PList []]> (<["current_date" := PInt 1]> ∅))))
  = check_response
      (PDict (<["homeworks" := PList []]> (<["current_date" := PInt 1]> ∅))).
Proof.
  apply check_response_ignores_other_keys; discriminate.
Defined.

(** X8 at a work item without a name. *)
Lemma parse_status_missing_keys_witness :
  ¬ (is_Some (({[ "status" := PStr "approved" ]} : gmap string pyval)
                !! "homework_name")
     ∧ is_Some (({[ "status" := PStr "approved" ]} : gmap string pyval)
                  !! "status"))
  ∧ outcome_of (parse_status sample_repr sample_repr_set
                  {[ "status" := PStr "approved" ]})
    = Raise (Exn KeyError
               (PStr "Отсутствуют ключи {'homework_name'} в словаре 'homework'")
               None).
Proof.
  assert (¬ (is_Some (({[ "status" := PStr "approved" ]} : gmap string pyval)
                        !! "homework_name")
             ∧ is_Some (({[ "status" := PStr "approved" ]} : gmap string pyval)
                          !! "status"))) as Hmissing
    by (intros [[v Hv] _]; discriminate Hv).
  split; [exact Hmissing|].
  rewrite (proj1 (parse_status_missing_keys sample_repr sample_repr_set _ Hmissing)).
  by vm_compute.
Defined.

(** X9 at a status that is a list. *)
Lemma parse_status_unhashable_status_witness :
  ¬ hashable (PList [])
  ∧ parse_status sample_repr sample_repr_set
      (<["homework_name" := PStr "task1"]> {[ "status" := PList [] ]})
    = ([], Raise (Exn TypeError (PStr "unhashable type: 'list'") None)).
Proof.
  split; [by intros []|].
  refine (parse_status_unhashable_status sample_repr sample_repr_set
            (<["homework_name" := PStr "task1"]> {[ "status" := PList [] ]})
            (PList []) _ eq_refl _).
  - by eexists.
  - by intros [].
Defined.

(** X10 at a work item with a further key. *)
Lemma parse_status_reads_two_keys_witness :
  parse_status sample_repr sample_repr_set
    (<["reviewer_comment" := PStr "ok"]> task1_approved)
  = parse_status sample_repr sample_repr_set task1_approved.
Proof.
  apply parse_status_reads_two_keys; reflexivity.
Defined.

(** X11 at the work item of the first scenario. *)
Lemma parse_status_returns_witness :
  parse_status sample_repr sample_repr_set task1_approved
  = ([Log ModuleLogger INFO task1_message], Return task1_message)
  ∧ task1_message ≠ NO_WORK.
Proof.
  assert (parse_status sample_repr sample_repr_set task1_approved
          = ([Log ModuleLogger INFO task1_message], Return task1_message))
    as Hret by (by vm_compute).
  split; [exact Hret|].
  destruct (parse_status_returns sample_repr sample_repr_set _ _ _ Hret)
    as (name & status & phrase & _ & _ & _ & _ & _ & _ & Hne).
  exact Hne.
Defined.

(** X12 at an exception of the bot that is no [TelegramError]. *)
Lemma send_message_unrelated_exception_witness :
  isinstance bot_misused TelegramError = false
  ∧ send_message sample_repr sample_chat (task1_world (Some bot_misused))
      task1_message
    = ([BotSend sample_chat task1_message false], Raise bot_misused).
Proof.
  split; [reflexivity|].
  exact (send_message_unrelated_exception sample_repr sample_chat
           (task1_world (Some bot_misused)) task1_message bot_misused
           eq_refl eq_refl).
Defined.

(** X14 with the Telegram token missing. *)
Lemma main_missing_credentials_witness :
  ¬ (is_Some sample_token ∧ is_Some (None : option string) ∧ is_Some sample_chat)
  ∧ main sample_repr sample_repr_set sample_token None sample_chat
      accepting_Bot 1700000000 [empty_world; empty_world]
    = ([Log ModuleLogger INFO "Отсутствуют обязательные переменные окружения.";
        Log RootLogger CRITICAL "Отсутствуют обязательные переменные окружения."],
       Raise (Exn SystemExit (PInt 1) None)).
Proof.
  assert (¬ (is_Some sample_token ∧ is_Some (None : option string)
             ∧ is_Some sample_chat)) as Hmissing
    by (intros (_ & [v Hv] & _); discriminate Hv).
  split; [exact Hmissing|].
  exact (main_missing_credentials sample_repr sample_repr_set sample_token None
           sample_chat accepting_Bot 1700000000 _ Hmissing).
Defined.

(** X15 at a first cycle that delivers the verdict of [task1_approved]. *)
Lemma iteration_new_verdict_witness :
  task1_message ≠ last_status remembers_nothing
  ∧ outcome_of (iteration sample_repr sample_repr_set sample_token sample_chat
                  (task1_world None) remembers_nothing)
    = Return remembers_task1.
Proof.
  assert (task1_message ≠ last_status remembers_nothing) as Hne by done.
  split; [exact Hne|].
  by rewrite (iteration_new_verdict sample_repr sample_repr_set sample_token
                sample_chat (task1_world None) remembers_nothing task1_message
                task1_trace (task1_resolves None "") Hne eq_refl).
Defined.

(** X16 at a first cycle whose Telegram call fails. *)
Lemma first_verdict_is_sent_witness :
  last_status remembers_nothing = ""
  ∧ ∃ delivered,
      bot_sends (trace_of (iteration sample_repr sample_repr_set sample_token
                             sample_chat (task1_world (Some network_down))
                             remembers_nothing))
      = [(task1_message, delivered)].
Proof.
  split; [reflexivity|].
  destruct (first_verdict_is_sent sample_repr sample_repr_set sample_token
              sample_chat (task1_world (Some network_down)) remembers_nothing
              task1_message task1_trace (task1_resolves (Some network_down) "")
              eq_refl) as (delivered & Hsends & _).
  by exists delivered.
Defined.

(** X17 at a response with status 500. *)
Lemma iteration_bad_status_witness :
  (500 : Z) ≠ 200
  ∧ outcome_of (iteration sample_repr sample_repr_set sample_token sample_chat
                  (world_status 500) remembers_task1)
    = Return remembers_task1
  ∧ bot_sends (trace_of (iteration sample_repr sample_repr_set sample_token
                           sample_chat (world_status 500) remembers_task1))
    = [].
Proof.
  assert ((500 : Z) ≠ 200) as Hcode by done.
  split; [exact Hcode|].
  by rewrite (iteration_bad_status sample_repr sample_repr_set sample_token
                sample_chat (world_status 500) remembers_task1 _ eq_refl Hcode).
Defined.

(** X19 at a [KeyboardInterrupt] during the first of three cycles. *)
Lemma poll_stops_on_interrupt_witness :
  isinstance interrupted Exception = false
  ∧ poll sample_repr sample_repr_set sample_token sample_chat
      [world_http_raises interrupted; empty_world; empty_world] remembers_nothing
    = ([HttpGet ENDPOINT "OAuth practicum-token" 1700000000; Sleep 600],
       Raise interrupted).
Proof.
  split; [reflexivity|].
  exact (poll_stops_on_interrupt sample_repr sample_repr_set sample_token
           sample_chat (world_http_raises interrupted) [empty_world; empty_world]
           remembers_nothing interrupted eq_refl eq_refl).
Defined.

(** X20 at a failed and then a successful delivery of the same verdict. *)
Lemma poll_remembers_only_delivered_witness :
  outcome_of (poll sample_repr sample_repr_set sample_token sample_chat
                [task1_world (Some network_down); task1_world None]
                remembers_nothing)
  = Return remembers_task1
  ∧ (last_status remembers_task1 = last_status remembers_nothing
     ∨ (last_status remembers_task1, true)
       ∈ bot_sends (trace_of (poll sample_repr sample_repr_set sample_token
                                sample_chat
                                [task1_world (Some network_down); task1_world None]
                                remembers_nothing))).
Proof.
  assert (outcome_of (poll sample_repr sample_repr_set sample_token sample_chat
                        [task1_world (Some network_down); task1_world None]
                        remembers_nothing)
          = Return remembers_task1) as Hret by (by vm_compute).
  split; [exact Hret|].
  exact (poll_remembers_only_delivered sample_repr sample_repr_set sample_token
           sample_chat _ _ _ Hret).
Defined.

(** X21 at three empty cycles after the verdict of [task1_approved]. *)
Lemma no_work_only_before_first_verdict_witness :
  last_status remembers_task1 ≠ ""
  ∧ ∀ d, (NO_WORK, d)
         ∉ bot_sends (trace_of (poll sample_repr sample_repr_set sample_token
                                  sample_chat
                                  [empty_world; empty_world; empty_world]
                                  remembers_task1)).
Proof.
  assert (last_status remembers_task1 ≠ "") as Hne by done.
  split; [exact Hne|].
  exact (proj1 (no_work_only_before_first_verdict sample_repr sample_repr_set
                  sample_token sample_chat
                  [empty_world; empty_world; empty_world] remembers_task1 Hne)).
Defined.

(** X22 at a constructor that refuses the token. *)
Lemma main_bot_refused_witness :
  (is_Some sample_token ∧ is_Some (Some "telegram token") ∧ is_Some sample_chat)
  ∧ main sample_repr sample_repr_set sample_token (Some "telegram token")
      sample_chat refusing_Bot 1700000000 [empty_world; empty_world]
    = ([Log ModuleLogger INFO "Переменные окружения заполнены."],
       Raise invalid_token).
Proof.
  assert (is_Some sample_token ∧ is_Some (Some "telegram token")
          ∧ is_Some sample_chat) as Hset by (repeat split; by eexists).
  split; [exact Hset|].
  exact (main_bot_refused sample_repr sample_repr_set sample_token
           (Some "telegram token") sample_chat refusing_Bot 1700000000
           [empty_world; empty_world] invalid_token Hset eq_refl).
Defined.
